(** * weather-backend: the forecast handlers of [src/controllers/weatherController.js]

    A shallow embedding of the two exported request handlers,
    [getKaohsiungWeather] and [getWeatherByCity], together with the part of
    JavaScript they rely on: JSON values, property reads that throw on
    [undefined]/[null], truthiness, string concatenation with [+], the
    prototype chain behind the object literal [cityMap], and
    [try]/[catch].

    Conventions.
    - Strings are byte strings holding UTF-8, exactly as they are written in
      the source file.
    - A JSON object is the association list of its own properties in
      insertion order (keys distinct, as [JSON.parse] leaves them).
    - Numbers are the integer-valued ones; a number with a fractional part is
      not represented.
    - Three things are not interpreted and are reported as [Unmodelled]: the
      UTF-16 view of a string ([.length] and indexing of a string value), the
      numeric coercion of a string, array or object in the loop test
      [i < timeCount], and the printing of a number beyond 2^53. *)

From Stdlib Require Import List String Ascii ZArith Bool Lia DecimalString.
Import ListNotations.
Local Open Scope string_scope.
Local Open Scope list_scope.

(** ** JavaScript values *)

#[local] Set Warnings "-register-all".

Inductive JsValue : Type :=
| VUndefined
| VNull
| VBool (b : bool)
| VNum (n : Z)
| VStr (s : string)
| VArr (items : list JsValue)
| VObj (fields : list (string * JsValue)).

(** What a [throw] carries in these handlers: a [TypeError] raised by the
    engine, or the error [axios] rejects with, whose [response] is present
    only when the server answered. *)
Inductive Thrown : Type :=
| TypeError
| AxiosError (response : option (Z * JsValue)).

Inductive Completion (A : Type) : Type :=
| Normal (a : A)
| Throw (e : Thrown)
| Unmodelled.

Arguments Normal {A} a.
Arguments Throw {A} e.
Arguments Unmodelled {A}.

Definition bind {A B : Type} (c : Completion A) (k : A -> Completion B)
  : Completion B :=
  match c with
  | Normal a => k a
  | Throw e => Throw e
  | Unmodelled => Unmodelled
  end.

Notation "x <- c ;; k" := (bind c (fun x => k))
  (at level 61, c at next level, right associativity).

(** [ToBoolean]: the falsy values are [undefined], [null], [false], [0]
    and the empty string. *)
Definition truthy (v : JsValue) : bool :=
  match v with
  | VUndefined | VNull => false
  | VBool b => b
  | VNum n => negb (n =? 0)%Z
  | VStr s => negb (s =? "")
  | VArr _ | VObj _ => true
  end.

(** Own-property lookup in an object's property list. *)
Fixpoint own {A : Type} (fields : list (string * A)) (k : string) : option A :=
  match fields with
  | [] => None
  | (k', v) :: rest => if k' =? k then Some v else own rest k
  end.

(** [v.k] for the property names the handlers read by name ([records],
    [location], [locationName], [datasetDescription], [weatherElement],
    [time], [startTime], [endTime], [parameter], [elementName],
    [parameterName], [message]).  None of them is defined on a built-in
    prototype, so a miss is [undefined]; reading from [undefined] or [null]
    throws. *)
Definition get_prop (v : JsValue) (k : string) : Completion JsValue :=
  match v with
  | VUndefined | VNull => Throw TypeError
  | VObj fields =>
      match own fields k with
      | Some x => Normal x
      | None => Normal VUndefined
      end
  | VBool _ | VNum _ | VStr _ | VArr _ => Normal VUndefined
  end.

Definition index_key (i : nat) : string :=
  NilZero.string_of_uint (Nat.to_uint i).

(** [v[i]] for a non-negative integer [i]. *)
Definition get_index (v : JsValue) (i : nat) : Completion JsValue :=
  match v with
  | VUndefined | VNull => Throw TypeError
  | VArr items => Normal (nth i items VUndefined)
  | VObj fields =>
      match own fields (index_key i) with
      | Some x => Normal x
      | None => Normal VUndefined
      end
  | VStr _ => Unmodelled
  | VBool _ | VNum _ => Normal VUndefined
  end.

(** [v.length] *)
Definition get_length (v : JsValue) : Completion JsValue :=
  match v with
  | VUndefined | VNull => Throw TypeError
  | VArr items => Normal (VNum (Z.of_nat (List.length items)))
  | VObj fields =>
      match own fields "length" with
      | Some x => Normal x
      | None => Normal VUndefined
      end
  | VStr _ => Unmodelled
  | VBool _ | VNum _ => Normal VUndefined
  end.

Definition has_own {A : Type} (fields : list (string * A)) (k : string) : bool :=
  match own fields k with Some _ => true | None => false end.

Definition join_comma (parts : list string) : string :=
  String.concat "," parts.

(** [ToString], as applied by [+] and by [Array.prototype.join].  An object
    parsed from JSON has no callable [toString] of its own: with the
    inherited one it prints as [[object Object]], and with an own
    (non-callable) [toString] property the conversion throws. *)
Fixpoint ToString (v : JsValue) : Completion string :=
  match v with
  | VUndefined => Normal "undefined"
  | VNull => Normal "null"
  | VBool true => Normal "true"
  | VBool false => Normal "false"
  | VNum n =>
      if (Z.abs n <=? 2 ^ 53)%Z
      then Normal (NilZero.string_of_int (Z.to_int n))
      else Unmodelled
  | VStr s => Normal s
  | VArr items =>
      parts <- (fix each (l : list JsValue) : Completion (list string) :=
                  match l with
                  | [] => Normal []
                  | x :: rest =>
                      s <- match x with
                           | VUndefined | VNull => Normal ""
                           | _ => ToString x
                           end ;;
                      ss <- each rest ;;
                      Normal (s :: ss)
                  end) items ;;
      Normal (join_comma parts)
  | VObj fields =>
      if has_own fields "toString" then Throw TypeError
      else Normal "[object Object]"
  end.

(** [l + r] with a string on the right: the left operand is converted with
    [ToString] and the two are concatenated. *)
Definition plus_string (l : JsValue) (r : string) : Completion JsValue :=
  s <- ToString l ;;
  Normal (VStr (s ++ r)).

(** ** Responses and effects *)

(** The object literal handed to [res.json] on an error path.  [error] is a
    string literal on every path; [message] and [details] are [None] where
    the literal has no such key. *)
Record ErrorBody : Type := {
  error : string;
  message : option JsValue;
  details : option JsValue
}.

Record Forecast : Type := {
  startTime : JsValue;
  endTime : JsValue;
  weather : JsValue;
  rain : JsValue;
  minTemp : JsValue;
  maxTemp : JsValue;
  comfort : JsValue;
  windSpeed : JsValue
}.

Record WeatherData : Type := {
  city : JsValue;
  updateTime : JsValue;
  forecasts : list Forecast
}.

(** [Success d] is [{ success: true, data: d }]. *)
Inductive Body : Type :=
| Failure (e : ErrorBody)
| Success (data : WeatherData).

Record HttpResponse : Type := {
  status : Z;
  body : Body
}.

(** What [cityMap[k]] can evaluate to: one of the table's own strings, or a
    member inherited from [Object.prototype]. *)
Inductive MapValue : Type :=
| CityName (s : string)
| NativeFunction (name : string)
| ObjectPrototype.

Record AxiosRequest : Type := {
  url : string;
  Authorization : option string;
  locationName : MapValue
}.

Inductive AxiosResult : Type :=
| Resolved (data : JsValue)
| Rejected (response : option (Z * JsValue)).

Inductive Event : Type :=
| HttpGet (r : AxiosRequest)
| ConsoleError.

(** How an invocation ends: a response was sent; or an exception left the
    [catch] block, so the [async] function rejects and nothing is sent; or
    the run left the interpreted fragment. *)
Inductive Outcome : Type :=
| Sent (r : HttpResponse)
| Escaped (e : Thrown)
| NotInterpreted.

(** ** The normalisation loop (lines 45-93 and, verbatim, 204-246) *)

Definition set_weather (f : Forecast) (v : JsValue) : Forecast :=
  {| startTime := startTime f; endTime := endTime f; weather := v;
     rain := rain f; minTemp := minTemp f; maxTemp := maxTemp f;
     comfort := comfort f; windSpeed := windSpeed f |}.

Definition set_rain (f : Forecast) (v : JsValue) : Forecast :=
  {| startTime := startTime f; endTime := endTime f; weather := weather f;
     rain := v; minTemp := minTemp f; maxTemp := maxTemp f;
     comfort := comfort f; windSpeed := windSpeed f |}.

Definition set_minTemp (f : Forecast) (v : JsValue) : Forecast :=
  {| startTime := startTime f; endTime := endTime f; weather := weather f;
     rain := rain f; minTemp := v; maxTemp := maxTemp f;
     comfort := comfort f; windSpeed := windSpeed f |}.

Definition set_maxTemp (f : Forecast) (v : JsValue) : Forecast :=
  {| startTime := startTime f; endTime := endTime f; weather := weather f;
     rain := rain f; minTemp := minTemp f; maxTemp := v;
     comfort := comfort f; windSpeed := windSpeed f |}.

Definition set_comfort (f : Forecast) (v : JsValue) : Forecast :=
  {| startTime := startTime f; endTime := endTime f; weather := weather f;
     rain := rain f; minTemp := minTemp f; maxTemp := maxTemp f;
     comfort := v; windSpeed := windSpeed f |}.

Definition set_windSpeed (f : Forecast) (v : JsValue) : Forecast :=
  {| startTime := startTime f; endTime := endTime f; weather := weather f;
     rain := rain f; minTemp := minTemp f; maxTemp := maxTemp f;
     comfort := comfort f; windSpeed := v |}.

(** The [switch (element.elementName)] with its six cases; [value] is
    [element.time[i].parameter].  [switch] compares with [===], so only a
    string can match, and any other name falls through every case. *)
Definition switch_elementName (elementName value : JsValue) (forecast : Forecast)
  : Completion Forecast :=
  match elementName with
  | VStr name =>
      if name =? "Wx" then
        p <- get_prop value "parameterName" ;;
        Normal (set_weather forecast p)
      else if name =? "PoP" then
        p <- get_prop value "parameterName" ;;
        r <- plus_string p "%" ;;
        Normal (set_rain forecast r)
      else if name =? "MinT" then
        p <- get_prop value "parameterName" ;;
        r <- plus_string p "°C" ;;
        Normal (set_minTemp forecast r)
      else if name =? "MaxT" then
        p <- get_prop value "parameterName" ;;
        r <- plus_string p "°C" ;;
        Normal (set_maxTemp forecast r)
      else if name =? "CI" then
        p <- get_prop value "parameterName" ;;
        Normal (set_comfort forecast p)
      else if name =? "WS" then
        p <- get_prop value "parameterName" ;;
        Normal (set_windSpeed forecast p)
      else Normal forecast
  | _ => Normal forecast
  end.

(** The arrow function passed to [forEach], at loop index [i]. *)
Definition each_element (i : nat) (element : JsValue) (forecast : Forecast)
  : Completion Forecast :=
  t <- get_prop element "time" ;;
  w <- get_index t i ;;
  value <- get_prop w "parameter" ;;
  elementName <- get_prop element "elementName" ;;
  switch_elementName elementName value forecast.

Fixpoint forEach_items (items : list JsValue)
    (callback : JsValue -> Forecast -> Completion Forecast)
    (forecast : Forecast) : Completion Forecast :=
  match items with
  | [] => Normal forecast
  | element :: rest =>
      forecast' <- callback element forecast ;;
      forEach_items rest callback forecast'
  end.

(** [weatherElements.forEach(callback)]: only an array has a callable
    [forEach]; on anything else the call throws. *)
Definition forEach (weatherElements : JsValue)
    (callback : JsValue -> Forecast -> Completion Forecast)
    (forecast : Forecast) : Completion Forecast :=
  match weatherElements with
  | VArr items => forEach_items items callback forecast
  | _ => Throw TypeError
  end.

(** [weatherElements[0].time[i].k] *)
Definition first_element_window (weatherElements : JsValue) (i : nat) (k : string)
  : Completion JsValue :=
  e0 <- get_index weatherElements 0 ;;
  t <- get_prop e0 "time" ;;
  w <- get_index t i ;;
  get_prop w k.

(** The object literal [const forecast = { startTime: ..., endTime: ...,
    weather: "", rain: "", minTemp: "", maxTemp: "", comfort: "",
    windSpeed: "" }]. *)
Definition blank (st en : JsValue) : Forecast :=
  {| startTime := st; endTime := en;
     weather := VStr ""; rain := VStr ""; minTemp := VStr "";
     maxTemp := VStr ""; comfort := VStr ""; windSpeed := VStr "" |}.

(** One turn of the [for] loop: the object literal, then the [forEach]. *)
Definition loop_body (weatherElements : JsValue) (i : nat) : Completion Forecast :=
  st <- first_element_window weatherElements i "startTime" ;;
  en <- first_element_window weatherElements i "endTime" ;;
  forEach weatherElements (each_element i) (blank st en).

(** How many [i = 0, 1, 2, ...] pass the test [i < timeCount]:
    [undefined] converts to [NaN], [null] to [0], [true] to [1]. *)
Definition turns (timeCount : JsValue) : Completion nat :=
  match timeCount with
  | VNum n => Normal (Z.to_nat n)
  | VUndefined | VNull => Normal 0
  | VBool b => Normal (if b then 1 else 0)
  | VStr _ | VArr _ | VObj _ => Unmodelled
  end.

(** [for (let i = ...; ...; i++) { ...; weatherData.forecasts.push(forecast) }]
    with [count] turns left, starting at index [i]. *)
Fixpoint for_loop (weatherElements : JsValue) (count i : nat)
    (forecasts : list Forecast) : Completion (list Forecast) :=
  match count with
  | O => Normal forecasts
  | S count' =>
      forecast <- loop_body weatherElements i ;;
      for_loop weatherElements count' (S i) (forecasts ++ [forecast])
  end.

(** [res.status(404).json({ error: "查無資料", message: notFound })] *)
Definition no_data (notFound : string) : HttpResponse :=
  {| status := 404;
     body := Failure {| error := "查無資料";
                        message := Some (VStr notFound);
                        details := None |} |}.

(** [res.json({ success: true, data: weatherData })] *)
Definition success (weatherData : WeatherData) : HttpResponse :=
  {| status := 200; body := Success weatherData |}.

(** From [response.data.records.location[0]] to the final [res.json];
    [notFound] is the 404 message of the calling handler. *)
Definition normalise (data : JsValue) (notFound : string) : Completion HttpResponse :=
  records <- get_prop data "records" ;;
  location <- get_prop records "location" ;;
  locationData <- get_index location 0 ;;
  if negb (truthy locationData) then Normal (no_data notFound)
  else
    city <- get_prop locationData "locationName" ;;
    records' <- get_prop data "records" ;;
    updateTime <- get_prop records' "datasetDescription" ;;
    weatherElements <- get_prop locationData "weatherElement" ;;
    e0 <- get_index weatherElements 0 ;;
    t0 <- get_prop e0 "time" ;;
    timeCount <- get_length t0 ;;
    count <- turns timeCount ;;
    forecasts <- for_loop weatherElements count 0 [] ;;
    Normal (success {| city := city; updateTime := updateTime;
                       forecasts := forecasts |}).

(** [res.status(s).json({ error: "CWA API 錯誤", message: m, details: d })] *)
Definition upstream_fault (s : Z) (m d : JsValue) : HttpResponse :=
  {| status := s;
     body := Failure {| error := "CWA API 錯誤";
                        message := Some m;
                        details := Some d |} |}.

(** [res.status(500).json({ error: "伺服器錯誤", message: ... })] *)
Definition server_fault : HttpResponse :=
  {| status := 500;
     body := Failure
       {| error := "伺服器錯誤";
          message := Some (VStr "無法取得天氣資料，請稍後再試");
          details := None |} |}.

(** The [catch (error)] block, the same in both handlers. *)
Definition catch_block (e : Thrown) : Outcome :=
  match e with
  | AxiosError (Some (upstream_status, data)) =>
      match get_prop data "message" with
      | Normal m =>
          Sent (upstream_fault upstream_status
                  (if truthy m then m else VStr "無法取得天氣資料") data)
      | Throw e' => Escaped e'
      | Unmodelled => NotInterpreted
      end
  | AxiosError None | TypeError => Sent server_fault
  end.

(** [try { ... } catch (error) { console.error(...); ... }] *)
Definition try_catch (c : Completion HttpResponse) : Outcome * list Event :=
  match c with
  | Normal r => (Sent r, [])
  | Throw e => (catch_block e, [ConsoleError])
  | Unmodelled => (NotInterpreted, [])
  end.

(** ** Configuration and the city table *)

Definition CWA_API_BASE_URL : string := "https://opendata.cwa.gov.tw/api".

Definition datastore_url : string :=
  CWA_API_BASE_URL ++ "/v1/rest/datastore/F-C0032-001".

(** The own properties of the object literal [cityMap], in source order. *)
Definition cityMap : list (string * string) :=
  [ ("taipei", "臺北市"); ("Taipei", "臺北市");
    ("taoyuan", "桃園市"); ("Taoyuan", "桃園市");
    ("taichung", "臺中市"); ("Taichung", "臺中市");
    ("tainan", "臺南市"); ("Tainan", "臺南市");
    ("kaohsiung", "高雄市"); ("Kaohsiung", "高雄市");
    ("keelung", "基隆市"); ("Keelung", "基隆市");
    ("hsinchu", "新竹市"); ("Hsinchu", "新竹市");
    ("newtaipei", "新北市"); ("NewTaipei", "新北市");
    ("hsinchucounty", "新竹縣"); ("HsinchuCounty", "新竹縣");
    ("miaoli", "苗栗縣"); ("Miaoli", "苗栗縣");
    ("changhua", "彰化縣"); ("Changhua", "彰化縣");
    ("nantou", "南投縣"); ("Nantou", "南投縣");
    ("yunlin", "雲林縣"); ("Yunlin", "雲林縣");
    ("chiayi", "嘉義市"); ("Chiayi", "嘉義市");
    ("chiayicounty", "嘉義縣"); ("ChiayiCounty", "嘉義縣");
    ("pingtung", "屏東縣"); ("Pingtung", "屏東縣");
    ("yilan", "宜蘭縣"); ("Yilan", "宜蘭縣");
    ("hualien", "花蓮縣"); ("Hualien", "花蓮縣");
    ("taitung", "臺東縣"); ("Taitung", "臺東縣");
    ("penghu", "澎湖縣"); ("Penghu", "澎湖縣");
    ("kinmen", "金門縣"); ("Kinmen", "金門縣");
    ("lienchiang", "連江縣"); ("Lienchiang", "連江縣") ].

(** The second argument of [axios.get]: [{ params: { Authorization:
    CWA_API_KEY, locationName } }], sent to the 36-hour forecast dataset. *)
Definition forecast_request (key : option string) (location : MapValue)
  : AxiosRequest :=
  {| url := datastore_url; Authorization := key; locationName := location |}.

(** [cityMap] is a plain object literal, so its prototype is
    [Object.prototype]; these are the properties a lookup inherits. *)
Definition Object_prototype : list (string * MapValue) :=
  [ ("constructor", NativeFunction "Object");
    ("__defineGetter__", NativeFunction "__defineGetter__");
    ("__defineSetter__", NativeFunction "__defineSetter__");
    ("hasOwnProperty", NativeFunction "hasOwnProperty");
    ("__lookupGetter__", NativeFunction "__lookupGetter__");
    ("__lookupSetter__", NativeFunction "__lookupSetter__");
    ("isPrototypeOf", NativeFunction "isPrototypeOf");
    ("propertyIsEnumerable", NativeFunction "propertyIsEnumerable");
    ("toString", NativeFunction "toString");
    ("valueOf", NativeFunction "valueOf");
    ("__proto__", ObjectPrototype);
    ("toLocaleString", NativeFunction "toLocaleString") ].

(** [cityMap[k]]: an own property first, then the prototype; [None] is
    [undefined]. *)
Definition cityMap_get (k : string) : option MapValue :=
  match own cityMap k with
  | Some name => Some (CityName name)
  | None => own Object_prototype k
  end.

Definition map_truthy (v : MapValue) : bool :=
  match v with
  | CityName s => negb (s =? "")
  | NativeFunction _ | ObjectPrototype => true
  end.

(** The text a template literal substitutes for [${v}]. *)
Definition map_text (v : MapValue) : string :=
  match v with
  | CityName s => s
  | NativeFunction name => "function " ++ name ++ "() { [native code] }"
  | ObjectPrototype => "[object Object]"
  end.

(** [!CWA_API_KEY] for a value read from [process.env]: a string, or
    [undefined] when the variable is not set. *)
Definition key_missing (key : option string) : bool :=
  match key with
  | None => true
  | Some k => k =? ""
  end.

(** Lower-casing restricted to ASCII, where [String.prototype.toLowerCase]
    is fully determined: [A]-[Z] move to [a]-[z], nothing else changes. *)
Definition lower_ascii (c : ascii) : ascii :=
  let n := nat_of_ascii c in
  if (65 <=? n)%nat && (n <=? 90)%nat then ascii_of_nat (n + 32) else c.

Fixpoint lower_string (s : string) : string :=
  match s with
  | EmptyString => EmptyString
  | String c rest => String (lower_ascii c) (lower_string rest)
  end.

Fixpoint is_ascii (s : string) : bool :=
  match s with
  | EmptyString => true
  | String c rest => (nat_of_ascii c <? 128)%nat && is_ascii rest
  end.

(** A lower-casing function is admissible when it agrees with
    [lower_string] on ASCII input; the Unicode case mappings of other
    characters are left open. *)
Definition lowers_ascii (toLowerCase : string -> string) : Prop :=
  forall s, is_ascii s = true -> toLowerCase s = lower_string s.

(** ** The two handlers *)

Section Handlers.

(** [String.prototype.toLowerCase]. *)
Variable toLowerCase : string -> string.

(** [process.env.CWA_API_KEY], read once when the module loads. *)
Variable CWA_API_KEY : option string.

(** [axios.get(url, { params })], awaited: the upstream's answer. *)
Variable axios_get : AxiosRequest -> AxiosResult.

Definition await_get (r : AxiosRequest) : Completion JsValue :=
  match axios_get r with
  | Resolved data => Normal data
  | Rejected response => Throw (AxiosError response)
  end.

(** [res.status(500).json({ error: "伺服器設定錯誤", message: ... })] *)
Definition configuration_fault : HttpResponse :=
  {| status := 500;
     body := Failure {| error := "伺服器設定錯誤";
                        message := Some (VStr "請在 .env 檔案中設定 CWA_API_KEY");
                        details := None |} |}.

(** Lines 13-117.  The source comment announces the Kaohsiung forecast;
    the request parameter and the 404 text are those written in the code. *)
Definition getKaohsiungWeather : Outcome * list Event :=
  if key_missing CWA_API_KEY then (Sent configuration_fault, [])
  else
    let request := forecast_request CWA_API_KEY (CityName "桃園市") in
    let '(outcome, log) :=
      try_catch (data <- await_get request ;;
                 normalise data "無法取得桃園市天氣資料") in
    (outcome, HttpGet request :: log).

(** [req.params.city.toLowerCase()] then [cityMap[cityParam]]. *)
Definition cwaCity_of (city : string) : option MapValue :=
  let cityParam := toLowerCase city in
  cityMap_get cityParam.

(** [res.status(400).json({ error: "不支援的城市" })] *)
Definition unsupported_city : HttpResponse :=
  {| status := 400;
     body := Failure {| error := "不支援的城市";
                        message := None;
                        details := None |} |}.

(** Lines 171-262.  [city] is [req.params.city], a string for the route
    [/:city]. *)
Definition getWeatherByCity (city : string) : Outcome * list Event :=
  if key_missing CWA_API_KEY then (Sent configuration_fault, [])
  else
    match cwaCity_of city with
    | None => (Sent unsupported_city, [])
    | Some cwaCity =>
        if negb (map_truthy cwaCity) then (Sent unsupported_city, [])
        else
          let request := forecast_request CWA_API_KEY cwaCity in
          let '(outcome, log) :=
            try_catch (data <- await_get request ;;
                       normalise data
                         ("無法取得" ++ map_text cwaCity ++ "天氣資料")) in
          (outcome, HttpGet request :: log)
    end.

End Handlers.

(** ** Vocabulary for the statements *)

(** [part] occurs in [whole]. *)
Definition contains (part whole : string) : Prop :=
  exists before after, whole = (before ++ part ++ after)%string.

(** The outbound calls recorded in a log, in order. *)
Fixpoint outbound_calls (log : list Event) : list AxiosRequest :=
  match log with
  | [] => []
  | HttpGet r :: rest => r :: outbound_calls rest
  | ConsoleError :: rest => outbound_calls rest
  end.

(** The six cases of the [switch], with the forecast field each case
    assigns and the unit it appends. *)
Inductive Field : Type := Wx | PoP | MinT | MaxT | CI | WS.

Definition element_name (k : Field) : string :=
  match k with
  | Wx => "Wx" | PoP => "PoP" | MinT => "MinT"
  | MaxT => "MaxT" | CI => "CI" | WS => "WS"
  end.

Definition unit_of (k : Field) : string :=
  match k with
  | PoP => "%"
  | MinT | MaxT => "°C"
  | Wx | CI | WS => ""
  end.

Definition field (k : Field) (f : Forecast) : JsValue :=
  match k with
  | Wx => weather f | PoP => rain f | MinT => minTemp f
  | MaxT => maxTemp f | CI => comfort f | WS => windSpeed f
  end.

Definition set_field (k : Field) (f : Forecast) (v : JsValue) : Forecast :=
  match k with
  | Wx => set_weather f v | PoP => set_rain f v | MinT => set_minTemp f v
  | MaxT => set_maxTemp f v | CI => set_comfort f v | WS => set_windSpeed f v
  end.

(** The case of the [switch] an [elementName] value selects, if any. *)
Definition case_of (elementName : JsValue) : option Field :=
  match elementName with
  | VStr name =>
      if name =? "Wx" then Some Wx
      else if name =? "PoP" then Some PoP
      else if name =? "MinT" then Some MinT
      else if name =? "MaxT" then Some MaxT
      else if name =? "CI" then Some CI
      else if name =? "WS" then Some WS
      else None
  | _ => None
  end.


(** [element] is the weather element called [k]. *)
Definition named (k : Field) (element : JsValue) : Prop :=
  get_prop element "elementName" = Normal (VStr (element_name k)).

(** [element.time[i].parameter.parameterName] *)
Definition parameterName_at (element : JsValue) (i : nat) : Completion JsValue :=
  t <- get_prop element "time" ;;
  w <- get_index t i ;;
  p <- get_prop w "parameter" ;;
  get_prop p "parameterName".

(** A time window that carries a [parameter] object with a string
    [parameterName]. *)
Definition has_parameter (window : JsValue) : Prop :=
  exists p s, get_prop window "parameter" = Normal p /\
              get_prop p "parameterName" = Normal (VStr s).

(** [element.time] is an array of at least [n] such windows. *)
Definition covers (n : nat) (element : JsValue) : Prop :=
  exists windows,
    get_prop element "time" = Normal (VArr windows) /\
    n <= List.length windows /\
    Forall has_parameter windows.

(** [locationData] is [data.records.location[0]]. *)
Definition first_location (data locationData : JsValue) : Prop :=
  exists records location,
    get_prop data "records" = Normal records /\
    get_prop records "location" = Normal location /\
    get_index location 0 = Normal locationData.

(** A forecast whose six element fields all come from upstream values, with
    the units appended. *)
Definition populated (f : Forecast) : Prop :=
  exists wx pop mint maxt ci ws,
    weather f = VStr wx /\ rain f = VStr (pop ++ "%") /\
    minTemp f = VStr (mint ++ "°C") /\ maxTemp f = VStr (maxt ++ "°C") /\
    comfort f = VStr ci /\ windSpeed f = VStr ws.

(** The five error responses the handlers can send. *)
Inductive ErrorBranch : HttpResponse -> Prop :=
| branch_configuration : ErrorBranch
    {| status := 500;
       body := Failure {| error := "伺服器設定錯誤";
                          message := Some (VStr "請在 .env 檔案中設定 CWA_API_KEY");
                          details := None |} |}
| branch_unsupported : ErrorBranch
    {| status := 400;
       body := Failure {| error := "不支援的城市";
                          message := None; details := None |} |}
| branch_no_data (text : string) : ErrorBranch
    {| status := 404;
       body := Failure {| error := "查無資料";
                          message := Some (VStr text); details := None |} |}
| branch_upstream (s : Z) (data upstream_message : JsValue) :
    get_prop data "message" = Normal upstream_message ->
    ErrorBranch
      {| status := s;
         body := Failure
           {| error := "CWA API 錯誤";
              message := Some (if truthy upstream_message then upstream_message
                               else VStr "無法取得天氣資料");
              details := Some data |} |}
| branch_server : ErrorBranch
    {| status := 500;
       body := Failure
         {| error := "伺服器錯誤";
            message := Some (VStr "無法取得天氣資料，請稍後再試");
            details := None |} |}.

(** The check run over every row of [cityMap]: the key is ASCII and the
    lookup of its lower-cased form yields the row's own city name. *)
Definition row_consistent (row : string * string) : bool :=
  is_ascii (fst row) &&
  match cityMap_get (lower_string (fst row)) with
  | Some (CityName name) => name =? snd row
  | _ => false
  end.

(** A computation that, when it throws, throws a [TypeError]. *)
Definition only_TypeError {A : Type} (c : Completion A) : Prop :=
  forall e, c = Throw e -> e = TypeError.

(** The rows of [cityMap] whose key is already in lower case. *)
Definition lowercase_rows : list (string * string) :=
  filter (fun row => fst row =? lower_string (fst row)) cityMap.

(** [v] is the initial empty string, or some text followed by the unit [u]. *)
Definition with_unit (u : string) (v : JsValue) : Prop :=
  v = VStr "" \/ exists s, v = VStr (s ++ u).

(** The three fields the [switch] writes with [+]: rain in percent, the two
    temperatures in degrees. *)
Definition units_kept (f : Forecast) : Prop :=
  with_unit "%" (rain f) /\
  with_unit "°C" (minTemp f) /\
  with_unit "°C" (maxTemp f).

(** Induction on values that reaches the items of an array. *)
Section Nested_induction.

Variable P : JsValue -> Prop.
Hypothesis P_undefined : P VUndefined.
Hypothesis P_null : P VNull.
Hypothesis P_bool : forall b, P (VBool b).
Hypothesis P_num : forall n, P (VNum n).
Hypothesis P_str : forall s, P (VStr s).
Hypothesis P_arr : forall items, Forall P items -> P (VArr items).
Hypothesis P_obj : forall fields, P (VObj fields).

Fixpoint JsValue_items_ind (v : JsValue) : P v :=
  match v with
  | VUndefined => P_undefined
  | VNull => P_null
  | VBool b => P_bool b
  | VNum n => P_num n
  | VStr s => P_str s
  | VArr items =>
      P_arr items
        ((fix all (l : list JsValue) : Forall P l :=
            match l with
            | [] => Forall_nil P
            | x :: rest => Forall_cons x (JsValue_items_ind x) (all rest)
            end) items)
  | VObj fields => P_obj fields
  end.

End Nested_induction.

(** The cases of the [switch] that append a unit with [+]. *)
Definition takes_unit (k : Field) : bool :=
  match k with
  | PoP | MinT | MaxT => true
  | Wx | CI | WS => false
  end.

(** What case [k] of the [switch] stores when the parameter name it reads is
    [p]: [p] itself, or the text of [p] followed by the unit. *)
Definition rendered (k : Field) (p v : JsValue) : Prop :=
  if takes_unit k
  then exists text, ToString p = Normal text /\ v = VStr (text ++ unit_of k)
  else v = p.

(** The [switch] can run on [value]: nothing is asked of an element whose
    name selects no case; a selected case reads [value.parameterName], and a
    case with a unit also converts that value to text. *)
Definition case_readable (elementName value : JsValue) : Prop :=
  match case_of elementName with
  | None => True
  | Some k =>
      exists p,
        get_prop value "parameterName" = Normal p /\
        (takes_unit k = true -> exists text, ToString p = Normal text)
  end.

(** Everything the callback of [forEach] reads from [element] at loop index
    [i]: [element.time[i].parameter], [element.elementName], and what the
    selected case reads. *)
Definition read_at (i : nat) (element : JsValue) : Prop :=
  exists t w value elementName,
    get_prop element "time" = Normal t /\
    get_index t i = Normal w /\
    get_prop w "parameter" = Normal value /\
    get_prop element "elementName" = Normal elementName /\
    case_readable elementName value.

(** [element] can be read at every index below [n]. *)
Definition reads_through (n : nat) (element : JsValue) : Prop :=
  forall i, i < n -> read_at i element.

(** The forecast after one pass of the [switch] that stores [v]. *)
Definition stored (elementName v : JsValue) (f : Forecast) : Forecast :=
  match case_of elementName with
  | Some k => set_field k f v
  | None => f
  end.

(** The three fields with a unit all carry it. *)
Definition ends_with_units (f : Forecast) : Prop :=
  exists pop mint maxt,
    rain f = VStr (pop ++ "%") /\
    minTemp f = VStr (mint ++ "°C") /\
    maxTemp f = VStr (maxt ++ "°C").

(** The three ways through [getWeatherByCity]: stopped by the key check,
    stopped by the city guard, or on to the outbound call. *)
Inductive Path (toLowerCase : string -> string) (key : option string)
    (net : AxiosRequest -> AxiosResult) (city : string) : Prop :=
| path_configuration :
    key_missing key = true ->
    getWeatherByCity toLowerCase key net city = (Sent configuration_fault, []) ->
    Path toLowerCase key net city
| path_unsupported :
    key_missing key = false ->
    cwaCity_of toLowerCase city = None ->
    getWeatherByCity toLowerCase key net city = (Sent unsupported_city, []) ->
    Path toLowerCase key net city
| path_call (cwaCity : MapValue) :
    key_missing key = false ->
    cwaCity_of toLowerCase city = Some cwaCity ->
    getWeatherByCity toLowerCase key net city =
      (fst (try_catch
              (data <- await_get net (forecast_request key cwaCity) ;;
               normalise data ("無法取得" ++ map_text cwaCity ++ "天氣資料"))),
       HttpGet (forecast_request key cwaCity) ::
         snd (try_catch
                (data <- await_get net (forecast_request key cwaCity) ;;
                 normalise data ("無法取得" ++ map_text cwaCity ++ "天氣資料")))) ->
    Path toLowerCase key net city.

(** ** Sample upstream documents *)

Definition sample_window (st en p : string) : JsValue :=
  VObj [("startTime", VStr st); ("endTime", VStr en);
        ("parameter", VObj [("parameterName", VStr p);
                            ("parameterValue", VStr "1")])].

Definition sample_element (name : string) (windows : list JsValue) : JsValue :=
  VObj [("elementName", VStr name); ("time", VArr windows)].

Definition sample_location (elements : list JsValue) : JsValue :=
  VObj [("locationName", VStr "臺北市"); ("weatherElement", VArr elements)].

Definition sample_document (elements : list JsValue) : JsValue :=
  VObj [("success", VStr "true");
        ("records",
         VObj [("datasetDescription", VStr "三十六小時天氣預報");
               ("location", VArr [sample_location elements])])].

Definition t0 : string := "2026-01-01 06:00:00".
Definition t1 : string := "2026-01-01 18:00:00".
Definition t2 : string := "2026-01-02 06:00:00".

(** Two windows, all six elements at both indices. *)
Definition six_elements : list JsValue :=
  [ sample_element "Wx" [sample_window t0 t1 "晴時多雲"; sample_window t1 t2 "多雲"];
    sample_element "PoP" [sample_window t0 t1 "10"; sample_window t1 t2 "30"];
    sample_element "MinT" [sample_window t0 t1 "18"; sample_window t1 t2 "16"];
    sample_element "CI" [sample_window t0 t1 "舒適"; sample_window t1 t2 "稍有寒意"];
    sample_element "MaxT" [sample_window t0 t1 "24"; sample_window t1 t2 "21"];
    sample_element "WS" [sample_window t0 t1 "2"; sample_window t1 t2 "3"] ].

(** The same without the [CI] element. *)
Definition five_elements : list JsValue :=
  [ sample_element "Wx" [sample_window t0 t1 "晴時多雲"; sample_window t1 t2 "多雲"];
    sample_element "PoP" [sample_window t0 t1 "10"; sample_window t1 t2 "30"];
    sample_element "MinT" [sample_window t0 t1 "18"; sample_window t1 t2 "16"];
    sample_element "MaxT" [sample_window t0 t1 "24"; sample_window t1 t2 "21"];
    sample_element "WS" [sample_window t0 t1 "2"; sample_window t1 t2 "3"] ].

(** [Wx] reports two windows, [PoP] only the first. *)
Definition short_PoP : list JsValue :=
  [ sample_element "Wx" [sample_window t0 t1 "晴時多雲"; sample_window t1 t2 "多雲"];
    sample_element "PoP" [sample_window t0 t1 "10"] ].

(** [Wx] reports two windows, [CI] only the first. *)
Definition short_CI : list JsValue :=
  [ sample_element "Wx" [sample_window t0 t1 "晴時多雲"; sample_window t1 t2 "多雲"];
    sample_element "CI" [sample_window t0 t1 "舒適"] ].

(** What the handlers make of [six_elements]. *)
Definition six_elements_data : WeatherData :=
  {| city := VStr "臺北市";
     updateTime := VStr "三十六小時天氣預報";
     forecasts :=
       [ {| startTime := VStr t0; endTime := VStr t1;
            weather := VStr "晴時多雲"; rain := VStr "10%";
            minTemp := VStr "18°C"; maxTemp := VStr "24°C";
            comfort := VStr "舒適"; windSpeed := VStr "2" |};
         {| startTime := VStr t1; endTime := VStr t2;
            weather := VStr "多雲"; rain := VStr "30%";
            minTemp := VStr "16°C"; maxTemp := VStr "21°C";
            comfort := VStr "稍有寒意"; windSpeed := VStr "3" |} ] |}.

(** An element list that is an object with index keys rather than an
    array; its first element has no time window. *)
Definition array_like_elements : JsValue :=
  VObj [("0", VObj [("time", VArr [])]); ("1", VNull)].

Definition array_like_document : JsValue :=
  VObj [("records",
         VObj [("location",
                VArr [VObj [("weatherElement", array_like_elements)]])])].

(** [PoP] listed twice, with different values. *)
Definition second_PoP : JsValue :=
  sample_element "PoP" [sample_window t0 t1 "60"; sample_window t1 t2 "70"].

Definition two_PoP : list JsValue :=
  [ sample_element "Wx" [sample_window t0 t1 "晴時多雲"; sample_window t1 t2 "多雲"];
    sample_element "PoP" [sample_window t0 t1 "10"; sample_window t1 t2 "30"];
    second_PoP ].

(** Elements that the loop reads without trouble although they are not of
    the documented shape: a numeric [parameterName], an element of another
    name whose windows have no [parameter], and a third window that lacks
    its [parameter]. *)
Definition loose_elements : list JsValue :=
  [ sample_element "Wx" [sample_window t0 t1 "晴時多雲"; sample_window t1 t2 "多雲"];
    VObj [("elementName", VStr "PoP");
          ("time", VArr [VObj [("parameter", VObj [("parameterName", VNum 40)])];
                         VObj [("parameter", VObj [("parameterName", VNum 5)])];
                         VObj []])];
    VObj [("elementName", VStr "UVI"); ("time", VArr [VObj []; VObj []])] ].

(** An answer to the Taoyuan request that carries a Kaohsiung record. *)
Definition kaohsiung_document : JsValue :=
  VObj [("records",
         VObj [("datasetDescription", VStr "三十六小時天氣預報");
               ("location",
                VArr [VObj [("locationName", VStr "高雄市");
                            ("weatherElement",
                             VArr [sample_element "Wx"
                                     [sample_window t0 t1 "晴時多雲"]])]])])].

Definition sample_key : option string := Some "CWA-0000".

Definition answers (data : JsValue) : AxiosRequest -> AxiosResult :=
  fun _ => Resolved data.

Definition fails_with (response : option (Z * JsValue))
  : AxiosRequest -> AxiosResult :=
  fun _ => Rejected response.

(** * Properties *)

(** ** The completion monad and property reads *)

Lemma bind_Normal {A B : Type} (a : A) (k : A -> Completion B) :
  bind (Normal a) k = k a.
Proof. reflexivity. Qed.

Lemma bind_inv {A B : Type} (c : Completion A) (k : A -> Completion B) (b : B) :
  bind c k = Normal b -> exists a, c = Normal a /\ k a = Normal b.
Proof.
  destruct c as [a | e |]; simpl; intros H; try discriminate.
  exists a; split; [reflexivity | exact H].
Qed.

Lemma contains_middle (before part after : string) :
  contains part (before ++ part ++ after).
Proof. exists before, after; reflexivity. Qed.

Lemma append_empty (s : string) : (s ++ "")%string = s.
Proof. induction s as [| c s IH]; simpl; [reflexivity | now rewrite IH]. Qed.

(** ** Reaching the outbound call *)

Section Reached.

Variable toLowerCase : string -> string.
Variable key : option string.
Variable net : AxiosRequest -> AxiosResult.
Variables (city : string) (cwaCity : MapValue).

Hypothesis key_present : key_missing key = false.
Hypothesis city_found : cwaCity_of toLowerCase city = Some cwaCity.
Hypothesis city_truthy : map_truthy cwaCity = true.

Let request := forecast_request key cwaCity.
Let notFound := ("無法取得" ++ map_text cwaCity ++ "天氣資料")%string.

Lemma getWeatherByCity_reached :
  getWeatherByCity toLowerCase key net city =
    (fst (try_catch (data <- await_get net request ;; normalise data notFound)),
     HttpGet request ::
       snd (try_catch (data <- await_get net request ;; normalise data notFound))).
Proof.
  unfold getWeatherByCity.
  rewrite key_present, city_found, city_truthy. cbn [negb].
  fold request. fold notFound.
  destruct (try_catch _) as [outcome log]. reflexivity.
Qed.

Lemma getWeatherByCity_rejected (response : option (Z * JsValue)) :
  net request = Rejected response ->
  getWeatherByCity toLowerCase key net city =
    (catch_block (AxiosError response), [HttpGet request; ConsoleError]).
Proof.
  intros Hnet. rewrite getWeatherByCity_reached.
  unfold await_get. rewrite Hnet. reflexivity.
Qed.

Lemma getWeatherByCity_resolved (data : JsValue) :
  net request = Resolved data ->
  getWeatherByCity toLowerCase key net city =
    (fst (try_catch (normalise data notFound)),
     HttpGet request :: snd (try_catch (normalise data notFound))).
Proof.
  intros Hnet. rewrite getWeatherByCity_reached.
  unfold await_get. rewrite Hnet. reflexivity.
Qed.

End Reached.

Lemma normalise_no_data (data locationData : JsValue) (notFound : string) :
  first_location data locationData ->
  truthy locationData = false ->
  normalise data notFound = Normal (no_data notFound).
Proof.
  intros (records & location & Hr & Hl & H0) Hfalsy.
  unfold normalise. rewrite Hr, bind_Normal, Hl, bind_Normal, H0, bind_Normal.
  rewrite Hfalsy. reflexivity.
Qed.

(** ** Configuration fault *)

(** C7: when no upstream credential is configured ([CWA_API_KEY] unset or
    empty), [getWeatherByCity] answers at once with the configuration fault,
    status 500, and its log holds no outbound call, whatever the city token
    and whatever the upstream would have answered. *)
Theorem C7_missing_key_fails_first :
  forall (toLowerCase : string -> string) (key : option string)
         (net : AxiosRequest -> AxiosResult) (city : string),
    key_missing key = true ->
    getWeatherByCity toLowerCase key net city = (Sent configuration_fault, []) /\
    status configuration_fault = 500%Z /\
    outbound_calls (snd (getWeatherByCity toLowerCase key net city)) = [].
Proof.
  intros toLowerCase key net city Hkey.
  assert (H : getWeatherByCity toLowerCase key net city
              = (Sent configuration_fault, [])).
  { unfold getWeatherByCity. rewrite Hkey. reflexivity. }
  rewrite H. repeat split.
Qed.

Lemma C7_witness :
  getWeatherByCity lower_string None (answers (sample_document six_elements))
    "Taipei" = (Sent configuration_fault, []) /\
  status configuration_fault = 500%Z /\
  outbound_calls
    (snd (getWeatherByCity lower_string None
            (answers (sample_document six_elements)) "Taipei")) = [].
Proof.
  apply (C7_missing_key_fails_first lower_string None
           (answers (sample_document six_elements)) "Taipei").
  reflexivity.
Defined.

(** ** Failures of the outbound call *)

(** C9: when the outbound call fails without any response object,
    [getWeatherByCity] sends the fixed status 500 with the retry-later
    message, and the log shows the one outbound call followed by the
    diagnostic line: no second call is made. *)
Theorem C9_network_fault_is_500_without_retry :
  forall (toLowerCase : string -> string) (key : option string)
         (net : AxiosRequest -> AxiosResult) (city : string)
         (cwaCity : MapValue),
    key_missing key = false ->
    cwaCity_of toLowerCase city = Some cwaCity ->
    map_truthy cwaCity = true ->
    net (forecast_request key cwaCity) = Rejected None ->
    getWeatherByCity toLowerCase key net city =
      (Sent {| status := 500;
               body := Failure
                 {| error := "伺服器錯誤";
                    message := Some (VStr "無法取得天氣資料，請稍後再試");
                    details := None |} |},
       [HttpGet (forecast_request key cwaCity); ConsoleError]) /\
    outbound_calls (snd (getWeatherByCity toLowerCase key net city))
      = [forecast_request key cwaCity].
Proof.
  intros toLowerCase key net city cwaCity Hkey Hcity Htruthy Hnet.
  rewrite (getWeatherByCity_rejected toLowerCase key net city cwaCity
             Hkey Hcity Htruthy None Hnet).
  split; reflexivity.
Qed.

Lemma C9_witness :
  getWeatherByCity lower_string sample_key (fails_with None) "Kaohsiung" =
    (Sent {| status := 500;
             body := Failure
               {| error := "伺服器錯誤";
                  message := Some (VStr "無法取得天氣資料，請稍後再試");
                  details := None |} |},
     [HttpGet (forecast_request sample_key (CityName "高雄市")); ConsoleError]) /\
  outbound_calls
    (snd (getWeatherByCity lower_string sample_key (fails_with None) "Kaohsiung"))
    = [forecast_request sample_key (CityName "高雄市")].
Proof.
  apply (C9_network_fault_is_500_without_retry lower_string sample_key
           (fails_with None) "Kaohsiung" (CityName "高雄市"));
    reflexivity.
Defined.

(** C3, as amended: when the outbound call fails with an upstream response
    of status [s] whose body [b] is not [null] or [undefined], the handler
    answers with status exactly [s], with [details] equal to [b], and with
    [message] equal to [b.message] when that value is truthy and to the
    fallback text otherwise. *)
Theorem C3_upstream_status_is_forwarded :
  forall (toLowerCase : string -> string) (key : option string)
         (net : AxiosRequest -> AxiosResult) (city : string)
         (cwaCity : MapValue) (s : Z) (b upstream_message : JsValue),
    key_missing key = false ->
    cwaCity_of toLowerCase city = Some cwaCity ->
    map_truthy cwaCity = true ->
    net (forecast_request key cwaCity) = Rejected (Some (s, b)) ->
    get_prop b "message" = Normal upstream_message ->
    getWeatherByCity toLowerCase key net city =
      (Sent {| status := s;
               body := Failure
                 {| error := "CWA API 錯誤";
                    message := Some (if truthy upstream_message
                                     then upstream_message
                                     else VStr "無法取得天氣資料");
                    details := Some b |} |},
       [HttpGet (forecast_request key cwaCity); ConsoleError]).
Proof.
  intros toLowerCase key net city cwaCity s b m Hkey Hcity Htruthy Hnet Hm.
  rewrite (getWeatherByCity_rejected toLowerCase key net city cwaCity
             Hkey Hcity Htruthy (Some (s, b)) Hnet).
  unfold catch_block. rewrite Hm. reflexivity.
Qed.

Lemma C3_witness :
  getWeatherByCity lower_string sample_key
    (fails_with (Some (503%Z, VObj [("message", VStr "maintenance")])))
    "taipei" =
    (Sent {| status := 503;
             body := Failure
               {| error := "CWA API 錯誤";
                  message := Some (VStr "maintenance");
                  details := Some (VObj [("message", VStr "maintenance")]) |} |},
     [HttpGet (forecast_request sample_key (CityName "臺北市")); ConsoleError]).
Proof.
  apply (C3_upstream_status_is_forwarded lower_string sample_key
           (fails_with (Some (503%Z, VObj [("message", VStr "maintenance")])))
           "taipei" (CityName "臺北市") 503%Z
           (VObj [("message", VStr "maintenance")]) (VStr "maintenance"));
    reflexivity.
Defined.

(** C3, the claim as stated fails: the upstream body [{ message: "" }]
    carries a [message] field, yet the response's message is the fallback
    text and not that field. *)
Lemma C3_counterexample :
  let b := VObj [("message", VStr "")] in
  get_prop b "message" = Normal (VStr "") /\
  (exists e,
     fst (getWeatherByCity lower_string sample_key
            (fails_with (Some (503%Z, b))) "taipei")
       = Sent {| status := 503; body := Failure e |} /\
     message e = Some (VStr "無法取得天氣資料") /\
     message e <> Some (VStr "")).
Proof.
  split; [reflexivity |].
  eexists. split; [reflexivity |]. split; [reflexivity | discriminate].
Qed.

(** ** No data for the location *)

(** C8, as amended: when the upstream answer's location list is an array
    that is empty, or whose first entry is falsy, [getWeatherByCity] sends
    status 404 and the message is built around the canonical location name
    the token resolved to. *)
Theorem C8_empty_location_list_is_404 :
  forall (toLowerCase : string -> string) (key : option string)
         (net : AxiosRequest -> AxiosResult) (city name : string)
         (data records : JsValue) (entries : list JsValue),
    key_missing key = false ->
    cwaCity_of toLowerCase city = Some (CityName name) ->
    name <> "" ->
    net (forecast_request key (CityName name)) = Resolved data ->
    get_prop data "records" = Normal records ->
    get_prop records "location" = Normal (VArr entries) ->
    truthy (nth 0 entries VUndefined) = false ->
    getWeatherByCity toLowerCase key net city =
      (Sent {| status := 404;
               body := Failure
                 {| error := "查無資料";
                    message := Some (VStr ("無法取得" ++ name ++ "天氣資料"));
                    details := None |} |},
       [HttpGet (forecast_request key (CityName name))]) /\
    contains name ("無法取得" ++ name ++ "天氣資料").
Proof.
  intros toLowerCase key net city name data records entries
         Hkey Hcity Hname Hnet Hrecords Hlocation Hfalsy.
  assert (Htruthy : map_truthy (CityName name) = true).
  { simpl. destruct (String.eqb_spec name ""); [contradiction | reflexivity]. }
  rewrite (getWeatherByCity_resolved toLowerCase key net city (CityName name)
             Hkey Hcity Htruthy data Hnet).
  rewrite (normalise_no_data data (nth 0 entries VUndefined)).
  - split; [reflexivity | apply contains_middle].
  - exists records, (VArr entries). repeat split; assumption.
  - exact Hfalsy.
Qed.

Lemma C8_witness :
  getWeatherByCity lower_string sample_key
    (answers (VObj [("records", VObj [("location", VArr [])])])) "Tainan" =
    (Sent {| status := 404;
             body := Failure
               {| error := "查無資料";
                  message := Some (VStr "無法取得臺南市天氣資料");
                  details := None |} |},
     [HttpGet (forecast_request sample_key (CityName "臺南市"))]) /\
  contains "臺南市" "無法取得臺南市天氣資料".
Proof.
  apply (C8_empty_location_list_is_404 lower_string sample_key
           (answers (VObj [("records", VObj [("location", VArr [])])]))
           "Tainan" "臺南市"
           (VObj [("records", VObj [("location", VArr [])])])
           (VObj [("location", VArr [])]) []);
    try reflexivity.
  discriminate.
Defined.

(** C8, the claim as stated fails: when the location list is absent from
    [records], reading its first entry throws, and the handler answers with
    the generic status 500 instead of 404. *)
Lemma C8_counterexample :
  let data := VObj [("records", VObj [("datasetDescription", VStr "")])] in
  (exists records,
     get_prop data "records" = Normal records /\
     get_prop records "location" = Normal VUndefined) /\
  getWeatherByCity lower_string sample_key (answers data) "Tainan" =
    (Sent server_fault,
     [HttpGet (forecast_request sample_key (CityName "臺南市")); ConsoleError]) /\
  status server_fault <> 404%Z.
Proof.
  split; [| split].
  - eexists. split; reflexivity.
  - reflexivity.
  - discriminate.
Qed.

(** ** The single-city handler *)

Lemma getKaohsiungWeather_reached (key : option string)
    (net : AxiosRequest -> AxiosResult) :
  key_missing key = false ->
  getKaohsiungWeather key net =
    (fst (try_catch (data <- await_get net (forecast_request key (CityName "桃園市")) ;;
                     normalise data "無法取得桃園市天氣資料")),
     HttpGet (forecast_request key (CityName "桃園市")) ::
       snd (try_catch (data <- await_get net (forecast_request key (CityName "桃園市")) ;;
                       normalise data "無法取得桃園市天氣資料"))).
Proof.
  intros Hkey. unfold getKaohsiungWeather. rewrite Hkey.
  destruct (try_catch _) as [outcome log]. reflexivity.
Qed.

Lemma try_catch_no_call (c : Completion HttpResponse) :
  outbound_calls (snd (try_catch c)) = [].
Proof. destruct c; reflexivity. Qed.

(** ** Every way a response can be sent *)

Lemma normalise_cases (data : JsValue) (notFound : string) (r : HttpResponse) :
  normalise data notFound = Normal r ->
  r = no_data notFound \/ exists d, r = success d.
Proof.
  unfold normalise. intros H.
  apply bind_inv in H as (records & _ & H).
  apply bind_inv in H as (location & _ & H).
  apply bind_inv in H as (locationData & _ & H).
  destruct (negb (truthy locationData)).
  - left. now inversion H.
  - right.
    repeat (apply bind_inv in H as (? & _ & H)).
    inversion H. eexists. reflexivity.
Qed.

Lemma catch_block_cases (e : Thrown) (r : HttpResponse) :
  catch_block e = Sent r ->
  r = server_fault \/
  exists s data m,
    get_prop data "message" = Normal m /\
    r = upstream_fault s (if truthy m then m else VStr "無法取得天氣資料") data.
Proof.
  destruct e as [| [[s data] |]]; simpl; intros H.
  - left. now inversion H.
  - destruct (get_prop data "message") as [m | e' |] eqn:Hm; try discriminate.
    right. exists s, data, m. split; [exact Hm | now inversion H].
  - left. now inversion H.
Qed.

Lemma after_call_cases (net : AxiosRequest -> AxiosResult)
    (request : AxiosRequest) (notFound : string) (r : HttpResponse) :
  fst (try_catch (data <- await_get net request ;; normalise data notFound))
    = Sent r ->
  r = no_data notFound \/ (exists d, r = success d) \/ r = server_fault \/
  exists s data m,
    get_prop data "message" = Normal m /\
    r = upstream_fault s (if truthy m then m else VStr "無法取得天氣資料") data.
Proof.
  unfold await_get.
  destruct (net request) as [data | response]; cbn [bind].
  - destruct (normalise data notFound) as [r' | e |] eqn:Hn;
      cbn [try_catch fst]; intros H.
    + inversion H; subst r'.
      destruct (normalise_cases _ _ _ Hn) as [-> | [d ->]]; eauto.
    + destruct (catch_block_cases _ _ H); auto.
    + discriminate.
  - cbn [try_catch fst]. intros H.
    destruct (catch_block_cases _ _ H); auto.
Qed.

(** C4, as amended: every error response [getWeatherByCity] sends is one of
    five object literals.  Each carries an [error] label string.  The two
    500 branches and the 404 branch also carry a [message] string; the
    forwarded-upstream branch carries as [message] the upstream body's
    [message] when that is truthy and the fallback string otherwise, plus
    [details]; the 400 branch carries the label alone, with no [message]. *)
Theorem C4_error_responses_are_the_five_literals :
  forall (toLowerCase : string -> string) (key : option string)
         (net : AxiosRequest -> AxiosResult) (city : string)
         (r : HttpResponse) (e : ErrorBody),
    fst (getWeatherByCity toLowerCase key net city) = Sent r ->
    body r = Failure e ->
    ErrorBranch r /\
    (message e = None <-> r = unsupported_city).
Proof.
  intros toLowerCase key net city r e Hsent Hbody.
  assert (Hbranch : ErrorBranch r); [| split; [exact Hbranch |]].
  2: { destruct Hbranch; simpl in Hbody; inversion Hbody; subst e; simpl;
       split; intros Heq; try discriminate Heq; reflexivity. }
  unfold getWeatherByCity in Hsent.
  destruct (key_missing key).
  { inversion Hsent. apply branch_configuration. }
  destruct (cwaCity_of toLowerCase city) as [cwaCity |].
  2: { inversion Hsent. apply branch_unsupported. }
  destruct (map_truthy cwaCity); cbn [negb] in Hsent.
  2: { inversion Hsent. apply branch_unsupported. }
  destruct (try_catch _) as [outcome log] eqn:Htry. cbn [fst] in Hsent.
  assert (Hfst : fst (try_catch
                        (data <- await_get net (forecast_request key cwaCity) ;;
                         normalise data
                           ("無法取得" ++ map_text cwaCity ++ "天氣資料"))) = Sent r).
  { rewrite Htry. exact Hsent. }
  destruct (after_call_cases _ _ _ _ Hfst)
    as [-> | [[d ->] | [-> | (s & data & m & Hm & ->)]]].
  - apply branch_no_data.
  - discriminate Hbody.
  - apply branch_server.
  - apply branch_upstream. exact Hm.
Qed.

Lemma C4_witness :
  ErrorBranch
    {| status := 503;
       body := Failure
         {| error := "CWA API 錯誤";
            message := Some (VStr "maintenance");
            details := Some (VObj [("message", VStr "maintenance")]) |} |} /\
  (Some (VStr "maintenance") = None <->
   {| status := 503;
      body := Failure
        {| error := "CWA API 錯誤";
           message := Some (VStr "maintenance");
           details := Some (VObj [("message", VStr "maintenance")]) |} |}
     = unsupported_city).
Proof.
  apply (C4_error_responses_are_the_five_literals lower_string sample_key
           (fails_with (Some (503%Z, VObj [("message", VStr "maintenance")])))
           "taipei" _
           {| error := "CWA API 錯誤";
              message := Some (VStr "maintenance");
              details := Some (VObj [("message", VStr "maintenance")]) |});
    reflexivity.
Defined.

(** C4, the claim as stated fails: the response to an unsupported city has
    status 400 and an [error] label, but no [message] at all. *)
Lemma C4_counterexample :
  exists r e,
    fst (getWeatherByCity lower_string sample_key
           (answers (sample_document six_elements)) "osaka") = Sent r /\
    status r = 400%Z /\
    body r = Failure e /\
    error e = "不支援的城市" /\
    message e = None.
Proof.
  eexists. eexists. repeat split; reflexivity.
Qed.

(** ** Tokens outside the table *)

Lemma after_call_not_unsupported (net : AxiosRequest -> AxiosResult)
    (request : AxiosRequest) (notFound : string) :
  fst (try_catch (data <- await_get net request ;; normalise data notFound))
    <> Sent unsupported_city.
Proof.
  intros H.
  destruct (after_call_cases _ _ _ _ H)
    as [Hr | [[d Hr] | [Hr | (s & data & m & _ & Hr)]]];
    discriminate Hr.
Qed.

(** A token whose lower-cased form is neither an own key of [cityMap] nor a
    property of [Object.prototype] is refused with status 400, and no
    outbound call is made. *)
Lemma unknown_token_is_refused (toLowerCase : string -> string)
    (key : option string) (net : AxiosRequest -> AxiosResult) (city : string) :
  key_missing key = false ->
  own cityMap (toLowerCase city) = None ->
  own Object_prototype (toLowerCase city) = None ->
  getWeatherByCity toLowerCase key net city = (Sent unsupported_city, []).
Proof.
  intros Hkey Hown Hproto.
  unfold getWeatherByCity, cwaCity_of, cityMap_get.
  rewrite Hkey, Hown, Hproto. reflexivity.
Qed.

(** C6, at the token [constructor]: its lower-cased form is not a key of the
    city table, yet the lookup finds the inherited [Object.prototype.constructor],
    the guard lets it through, and the outbound call is made with that
    function as [locationName]; the response is not the 400 one. *)
Theorem C6_inherited_property_passes_the_guard :
  forall (toLowerCase : string -> string) (key : option string)
         (net : AxiosRequest -> AxiosResult),
    lowers_ascii toLowerCase ->
    key_missing key = false ->
    own cityMap (toLowerCase "constructor") = None /\
    exists outcome log,
      getWeatherByCity toLowerCase key net "constructor" =
        (outcome,
         HttpGet (forecast_request key (NativeFunction "Object")) :: log) /\
      outcome <> Sent unsupported_city.
Proof.
  intros toLowerCase key net Hlower Hkey.
  assert (Hlc : toLowerCase "constructor" = "constructor").
  { rewrite (Hlower "constructor" eq_refl). reflexivity. }
  split.
  - rewrite Hlc. reflexivity.
  - assert (Hcity : cwaCity_of toLowerCase "constructor"
                    = Some (NativeFunction "Object")).
    { unfold cwaCity_of. rewrite Hlc. reflexivity. }
    rewrite (getWeatherByCity_reached toLowerCase key net "constructor"
               (NativeFunction "Object") Hkey Hcity eq_refl).
    eexists. eexists. split; [reflexivity |].
    apply after_call_not_unsupported.
Qed.

Lemma lower_string_lowers_ascii : lowers_ascii lower_string.
Proof. intros s _. reflexivity. Defined.

Lemma C6_witness :
  own cityMap (lower_string "constructor") = None /\
  exists outcome log,
    getWeatherByCity lower_string sample_key
      (answers (sample_document six_elements)) "constructor" =
      (outcome,
       HttpGet (forecast_request sample_key (NativeFunction "Object")) :: log) /\
    outcome <> Sent unsupported_city.
Proof.
  apply (C6_inherited_property_passes_the_guard lower_string sample_key
           (answers (sample_document six_elements))
           lower_string_lowers_ascii).
  reflexivity.
Defined.

(** ** Letter case of the token *)

Lemma lower_ascii_idempotent (c : ascii) :
  lower_ascii (lower_ascii c) = lower_ascii c.
Proof.
  destruct c as [[] [] [] [] [] [] [] []]; reflexivity.
Qed.

Lemma lower_ascii_stays_ascii (c : ascii) :
  (nat_of_ascii c <? 128)%nat = true ->
  (nat_of_ascii (lower_ascii c) <? 128)%nat = true.
Proof.
  destruct c as [[] [] [] [] [] [] [] []]; intros H;
    first [ reflexivity | discriminate H ].
Qed.

Lemma lower_string_idempotent (s : string) :
  lower_string (lower_string s) = lower_string s.
Proof.
  induction s as [| c s IH]; simpl; [reflexivity |].
  now rewrite lower_ascii_idempotent, IH.
Qed.

Lemma lower_string_stays_ascii (s : string) :
  is_ascii s = true -> is_ascii (lower_string s) = true.
Proof.
  induction s as [| c s IH]; simpl; [reflexivity |].
  intros H. apply andb_true_iff in H as [Hc Hs].
  now rewrite (lower_ascii_stays_ascii c Hc), (IH Hs).
Qed.

Lemma cityMap_rows_consistent : forallb row_consistent cityMap = true.
Proof. vm_compute. reflexivity. Qed.

Lemma cityMap_row (k name : string) :
  In (k, name) cityMap ->
  is_ascii k = true /\
  cityMap_get (lower_string k) = Some (CityName name).
Proof.
  intros Hin.
  pose proof (proj1 (forallb_forall row_consistent cityMap)
                cityMap_rows_consistent (k, name) Hin) as Hrow.
  unfold row_consistent in Hrow. cbn [fst snd] in Hrow.
  apply andb_true_iff in Hrow as [Hascii Hget].
  split; [exact Hascii |].
  destruct (cityMap_get (lower_string k)) as [[n | n |] |];
    try discriminate Hget.
  apply String.eqb_eq in Hget. now subst n.
Qed.

Section LetterCase.

Variable toLowerCase : string -> string.
Hypothesis toLowerCase_ascii : lowers_ascii toLowerCase.

Lemma cwaCity_of_ascii (s : string) :
  is_ascii s = true ->
  cwaCity_of toLowerCase s = cityMap_get (lower_string s).
Proof.
  intros Hs. unfold cwaCity_of. now rewrite (toLowerCase_ascii s Hs).
Qed.

Lemma cwaCity_of_same_lower (s t : string) :
  is_ascii s = true -> is_ascii t = true ->
  lower_string s = lower_string t ->
  cwaCity_of toLowerCase s = cwaCity_of toLowerCase t.
Proof.
  intros Hs Ht Heq.
  now rewrite (cwaCity_of_ascii s Hs), (cwaCity_of_ascii t Ht), Heq.
Qed.

End LetterCase.

Lemma getWeatherByCity_by_cwaCity (toLowerCase : string -> string)
    (key : option string) (net : AxiosRequest -> AxiosResult) (s t : string) :
  cwaCity_of toLowerCase s = cwaCity_of toLowerCase t ->
  getWeatherByCity toLowerCase key net s = getWeatherByCity toLowerCase key net t.
Proof.
  intros Heq. unfold getWeatherByCity. now rewrite Heq.
Qed.

(** C5: for any lower-casing that is the usual one on ASCII, every key of
    the city table, lower-case or capitalised, resolves to the canonical
    name written next to it, and so does its lower-cased form; and two ASCII
    tokens that differ only in letter case resolve alike and get the same
    treatment from the handler. *)
Theorem C5_resolution_ignores_letter_case :
  forall toLowerCase : string -> string,
    lowers_ascii toLowerCase ->
    (forall k name,
       In (k, name) cityMap ->
       cwaCity_of toLowerCase k = Some (CityName name) /\
       cwaCity_of toLowerCase (lower_string k) = Some (CityName name)) /\
    (forall s t,
       is_ascii s = true -> is_ascii t = true ->
       lower_string s = lower_string t ->
       cwaCity_of toLowerCase s = cwaCity_of toLowerCase t /\
       forall key net,
         getWeatherByCity toLowerCase key net s
           = getWeatherByCity toLowerCase key net t).
Proof.
  intros toLowerCase Hlower. split.
  - intros k name Hin.
    destruct (cityMap_row k name Hin) as [Hascii Hget].
    split.
    + now rewrite (cwaCity_of_ascii toLowerCase Hlower k Hascii).
    + rewrite (cwaCity_of_ascii toLowerCase Hlower (lower_string k)
                 (lower_string_stays_ascii k Hascii)).
      now rewrite lower_string_idempotent.
  - intros s t Hs Ht Heq.
    pose proof (cwaCity_of_same_lower toLowerCase Hlower s t Hs Ht Heq) as Hc.
    split; [exact Hc |].
    intros key net. now apply getWeatherByCity_by_cwaCity.
Qed.

Lemma C5_witness :
  cwaCity_of lower_string "Taipei" = Some (CityName "臺北市") /\
  cwaCity_of lower_string "taipei" = Some (CityName "臺北市").
Proof.
  apply (proj1 (C5_resolution_ignores_letter_case lower_string
                  lower_string_lowers_ascii) "Taipei" "臺北市").
  simpl. auto.
Defined.

(** ** The [switch] and the forecast fields *)

Lemma get_prop_defined (v x : JsValue) (k k' : string) :
  get_prop v k = Normal x -> exists y, get_prop v k' = Normal y.
Proof.
  destruct v; simpl; intros H; try discriminate H; eauto.
  destruct (own fields k'); eauto.
Qed.

Lemma get_prop_found_object (v : JsValue) (k : string) (items : list JsValue) :
  get_prop v k = Normal (VArr items) -> exists fields, v = VObj fields.
Proof.
  destruct v; simpl; intros H; try discriminate H; eauto.
Qed.

Lemma case_of_name (k : Field) : case_of (VStr (element_name k)) = Some k.
Proof. destruct k; reflexivity. Qed.

Lemma case_of_Some (v : JsValue) (k : Field) :
  case_of v = Some k -> v = VStr (element_name k).
Proof.
  destruct v as [| | b | n | name | items | fields]; simpl; try discriminate.
  repeat match goal with
         | |- context [String.eqb name ?lit] =>
             destruct (String.eqb_spec name lit) as [-> | _]
         end;
    intros H; inversion H; reflexivity.
Qed.

Lemma field_set_same (k : Field) (f : Forecast) (v : JsValue) :
  field k (set_field k f v) = v.
Proof. destruct k; reflexivity. Qed.

Lemma field_set_other (k k' : Field) (f : Forecast) (v : JsValue) :
  k <> k' -> field k (set_field k' f v) = field k f.
Proof. destruct k, k'; intros H; try reflexivity; contradiction H; reflexivity. Qed.

Lemma times_set_field (k : Field) (f : Forecast) (v : JsValue) :
  startTime (set_field k f v) = startTime f /\
  endTime (set_field k f v) = endTime f.
Proof. destruct k; split; reflexivity. Qed.




(** ** One turn of the loop on aligned elements *)

Lemma covers_window (n i : nat) (element : JsValue) :
  covers n element -> i < n ->
  exists windows p s,
    get_prop element "time" = Normal (VArr windows) /\
    i < List.length windows /\
    get_prop (nth i windows VUndefined) "parameter" = Normal p /\
    get_prop p "parameterName" = Normal (VStr s).
Proof.
  intros (windows & Htime & Hlen & Hall) Hi.
  assert (Hi' : i < List.length windows) by lia.
  pose proof (proj1 (Forall_forall has_parameter windows) Hall
                (nth i windows VUndefined) (nth_In windows VUndefined Hi'))
    as (p & s & Hp & Hs).
  exists windows, p, s. repeat split; assumption.
Qed.



Lemma field_blank (k : Field) (st en : JsValue) :
  field k (blank st en) = VStr "".
Proof. destruct k; reflexivity. Qed.

Section Aligned.

Variables (first : JsValue) (rest windows : list JsValue).

Hypothesis first_time : get_prop first "time" = Normal (VArr windows).
Hypothesis aligned : Forall (covers (List.length windows)) (first :: rest).

Let elements := first :: rest.



End Aligned.

(** ** The whole loop *)

Lemma for_loop_runs (weatherElements : JsValue) (count : nat) :
  forall (i : nat) (done : list Forecast),
    (forall j, i <= j < i + count ->
               exists f, loop_body weatherElements j = Normal f) ->
    exists fs,
      for_loop weatherElements count i done = Normal (done ++ fs) /\
      List.length fs = count /\
      forall j, j < count ->
        exists f, nth_error fs j = Some f /\
                  loop_body weatherElements (i + j) = Normal f.
Proof.
  induction count as [| count IH]; intros i done Hbody.
  - exists []. cbn [for_loop]. rewrite app_nil_r.
    repeat split; auto. intros j Hj. lia.
  - destruct (Hbody i ltac:(lia)) as [f Hf].
    destruct (IH (S i) (done ++ [f])) as (fs & Hrun & Hlen & Hnth).
    { intros j Hj. apply Hbody. lia. }
    exists (f :: fs). cbn [for_loop]. rewrite Hf, bind_Normal, Hrun.
    rewrite <- app_assoc. split; [reflexivity |].
    split; [cbn [List.length]; lia |].
    intros [| j] Hj.
    + exists f. rewrite Nat.add_0_r. split; [reflexivity | exact Hf].
    + destruct (Hnth j ltac:(lia)) as (f' & Hf' & Hb').
      exists f'. split; [exact Hf' |].
      replace (i + S j) with (S i + j) by lia. exact Hb'.
Qed.

Lemma turns_of_length (n : nat) : turns (VNum (Z.of_nat n)) = Normal n.
Proof. cbn [turns]. now rewrite Nat2Z.id. Qed.


(** ** The success path of [getWeatherByCity] *)

Section SuccessPath.

Variable toLowerCase : string -> string.
Variable key : option string.
Variable net : AxiosRequest -> AxiosResult.
Variables (city : string) (cwaCity : MapValue).
Variables (data locationData first : JsValue) (rest windows : list JsValue).

Hypothesis key_present : key_missing key = false.
Hypothesis city_found : cwaCity_of toLowerCase city = Some cwaCity.
Hypothesis city_truthy : map_truthy cwaCity = true.
Hypothesis answered : net (forecast_request key cwaCity) = Resolved data.
Hypothesis located : first_location data locationData.
Hypothesis located_truthy : truthy locationData = true.
Hypothesis listed :
  get_prop locationData "weatherElement" = Normal (VArr (first :: rest)).
Hypothesis first_time : get_prop first "time" = Normal (VArr windows).
Hypothesis aligned : Forall (covers (List.length windows)) (first :: rest).


End SuccessPath.

(** ** The sample documents *)

Ltac sample_covers :=
  repeat (apply Forall_cons || apply Forall_nil);
  (eexists; split; [reflexivity |];
   split; [cbn [List.length]; lia |];
   repeat (apply Forall_cons || apply Forall_nil);
   eexists; eexists; split; reflexivity).

Lemma six_elements_aligned : Forall (covers 2) six_elements.
Proof. unfold six_elements. sample_covers. Qed.

Lemma five_elements_aligned : Forall (covers 2) five_elements.
Proof. unfold five_elements. sample_covers. Qed.

Lemma sample_first_location (elements : list JsValue) :
  first_location (sample_document elements) (sample_location elements).
Proof.
  eexists. eexists. split; [reflexivity |]. split; reflexivity.
Qed.

Lemma six_elements_complete (k : Field) :
  exists e, In e six_elements /\ named k e.
Proof.
  destruct k;
    [ exists (nth 0 six_elements VUndefined)
    | exists (nth 1 six_elements VUndefined)
    | exists (nth 2 six_elements VUndefined)
    | exists (nth 4 six_elements VUndefined)
    | exists (nth 3 six_elements VUndefined)
    | exists (nth 5 six_elements VUndefined) ];
    (split; [cbn; tauto | reflexivity]).
Qed.

Lemma five_elements_lack_CI (e : JsValue) :
  In e five_elements -> ~ named CI e.
Proof.
  unfold five_elements. cbn [In].
  intros [<- | [<- | [<- | [<- | [<- | []]]]]]; discriminate.
Qed.

(** C1, the claim as stated fails: the first location entry has weather
    elements and the first of them has two time windows, but [PoP] has only
    one; the second turn of the loop throws and the handler answers with
    the generic status 500 instead of a success envelope with two entries. *)
Lemma C1_counterexample :
  let data := sample_document short_PoP in
  (exists first rest w0 w1,
     first_location data (sample_location short_PoP) /\
     get_prop (sample_location short_PoP) "weatherElement"
       = Normal (VArr (first :: rest)) /\
     get_prop first "time" = Normal (VArr [w0; w1])) /\
  getWeatherByCity lower_string sample_key (answers data) "Taipei" =
    (Sent server_fault,
     [HttpGet (forecast_request sample_key (CityName "臺北市")); ConsoleError]) /\
  status server_fault = 500%Z /\
  (forall d, server_fault <> success d).
Proof.
  split; [| split; [| split]].
  - do 4 eexists. split; [apply sample_first_location |].
    split; reflexivity.
  - reflexivity.
  - reflexivity.
  - intros d. discriminate.
Qed.

(** C2, the claim as stated fails: [CI] is absent for index 1 (its time list
    stops after the first window) while [Wx] reports two windows; at index 1
    the read of the missing window's parameter throws, the diagnostic line
    is logged, and the request fails with status 500 instead of succeeding
    with an empty [comfort]. *)
Lemma C2_counterexample :
  let ci := sample_element "CI" [sample_window t0 t1 "舒適"] in
  let data := sample_document short_CI in
  In ci short_CI /\ named CI ci /\
  (t <- get_prop ci "time" ;; get_index t 1) = Normal VUndefined /\
  parameterName_at ci 1 = Throw TypeError /\
  getWeatherByCity lower_string sample_key (answers data) "Taipei" =
    (Sent server_fault,
     [HttpGet (forecast_request sample_key (CityName "臺北市")); ConsoleError]) /\
  (forall d, server_fault <> success d).
Proof.
  repeat split; try reflexivity.
  - cbn. tauto.
  - intros d. discriminate.
Qed.

(** ** Runs on the sample documents *)

Example six_elements_run :
  fst (getWeatherByCity lower_string sample_key
         (answers (sample_document six_elements)) "Taipei") =
  Sent (success
    {| city := VStr "臺北市";
       updateTime := VStr "三十六小時天氣預報";
       forecasts :=
         [ {| startTime := VStr t0; endTime := VStr t1;
              weather := VStr "晴時多雲"; rain := VStr "10%";
              minTemp := VStr "18°C"; maxTemp := VStr "24°C";
              comfort := VStr "舒適"; windSpeed := VStr "2" |};
           {| startTime := VStr t1; endTime := VStr t2;
              weather := VStr "多雲"; rain := VStr "30%";
              minTemp := VStr "16°C"; maxTemp := VStr "21°C";
              comfort := VStr "稍有寒意"; windSpeed := VStr "3" |} ] |}).
Proof. reflexivity. Qed.

Example ToString_samples :
  ToString (VNum 30) = Normal "30" /\
  ToString (VNum (-4)) = Normal "-4" /\
  ToString (VNum 0) = Normal "0" /\
  ToString (VArr [VNum 1; VNull; VStr "a"; VArr [VBool true; VObj []]])
    = Normal "1,,a,true,[object Object]" /\
  index_key 0 = "0" /\ index_key 12 = "12" /\
  plus_string (VStr "20") "%" = Normal (VStr "20%") /\
  plus_string (VNum 20) "%" = Normal (VStr "20%").
Proof. repeat split; reflexivity. Qed.

Example unknown_token_run :
  getWeatherByCity lower_string sample_key
    (answers (sample_document six_elements)) "Osaka"
  = (Sent unsupported_city, []).
Proof. reflexivity. Qed.

Example null_body_escapes :
  fst (getWeatherByCity lower_string sample_key
         (fails_with (Some (502%Z, VNull))) "taipei") = Escaped TypeError.
Proof. reflexivity. Qed.

(** * Further properties of the handlers *)

(** ** What the normalisation can throw *)

Create HintDb throws.

Lemma only_TypeError_Normal {A : Type} (a : A) : only_TypeError (Normal a).
Proof. intros e H. discriminate H. Qed.

Lemma only_TypeError_Throw {A : Type} : only_TypeError (@Throw A TypeError).
Proof. intros e H. now inversion H. Qed.

Lemma only_TypeError_Unmodelled {A : Type} : only_TypeError (@Unmodelled A).
Proof. intros e H. discriminate H. Qed.

Lemma only_TypeError_bind {A B : Type} (c : Completion A)
    (k : A -> Completion B) :
  only_TypeError c -> (forall a, only_TypeError (k a)) ->
  only_TypeError (bind c k).
Proof.
  intros Hc Hk e. destruct c as [a | e' |]; cbn [bind]; intros H.
  - exact (Hk a e H).
  - inversion H; subst e'. now apply Hc.
  - discriminate H.
Qed.

Lemma get_prop_throws (v : JsValue) (k : string) : only_TypeError (get_prop v k).
Proof.
  intros e. destruct v; cbn [get_prop]; try destruct (own fields k);
    intros H; now inversion H.
Qed.

Lemma get_index_throws (v : JsValue) (i : nat) : only_TypeError (get_index v i).
Proof.
  intros e. destruct v; cbn [get_index];
    try destruct (own fields (index_key i)); intros H; now inversion H.
Qed.

Lemma get_length_throws (v : JsValue) : only_TypeError (get_length v).
Proof.
  intros e. destruct v; cbn [get_length];
    try destruct (own fields "length"); intros H; now inversion H.
Qed.

Lemma turns_throws (v : JsValue) : only_TypeError (turns v).
Proof. intros e. destruct v; cbn [turns]; intros H; discriminate H. Qed.

#[local] Hint Resolve only_TypeError_Normal only_TypeError_Throw
  only_TypeError_Unmodelled get_prop_throws get_index_throws
  get_length_throws turns_throws : throws.

Ltac throws :=
  repeat (apply only_TypeError_bind; [| intros ?]);
  auto with throws.

Lemma ToString_throws (v : JsValue) : only_TypeError (ToString v).
Proof.
  induction v as [| | b | n | s | items IH | fields]
    using JsValue_items_ind; cbn [ToString]; auto with throws.
  - destruct b; auto with throws.
  - destruct (Z.abs n <=? 2 ^ 53)%Z; auto with throws.
  - apply only_TypeError_bind; [| auto with throws].
    induction IH as [| x rest Hx _ IHrest]; [auto with throws |].
    apply only_TypeError_bind.
    + destruct x; auto with throws.
    + intros s. apply only_TypeError_bind; [exact IHrest | auto with throws].
  - destruct (has_own fields "toString"); auto with throws.
Qed.

#[local] Hint Resolve ToString_throws : throws.

Lemma switch_elementName_throws (elementName value : JsValue) (f : Forecast) :
  only_TypeError (switch_elementName elementName value f).
Proof.
  destruct elementName as [| | b | n | name | items | fields];
    cbn [switch_elementName]; auto with throws.
  repeat match goal with
         | |- context [String.eqb name ?lit] => destruct (String.eqb name lit)
         end;
    unfold plus_string; throws.
Qed.

#[local] Hint Resolve switch_elementName_throws : throws.

Lemma each_element_throws (i : nat) (element : JsValue) (f : Forecast) :
  only_TypeError (each_element i element f).
Proof. unfold each_element. throws. Qed.

Lemma forEach_throws (weatherElements : JsValue) (i : nat) (f : Forecast) :
  only_TypeError (forEach weatherElements (each_element i) f).
Proof.
  destruct weatherElements as [| | b | n | s | items | fields];
    cbn [forEach]; auto with throws.
  revert f. induction items as [| e rest IH]; intros f;
    cbn [forEach_items]; auto with throws.
  apply only_TypeError_bind; [apply each_element_throws | exact IH].
Qed.

Lemma loop_body_throws (weatherElements : JsValue) (i : nat) :
  only_TypeError (loop_body weatherElements i).
Proof.
  unfold loop_body, first_element_window.
  repeat (apply only_TypeError_bind; [solve [throws] | intros ?]).
  apply forEach_throws.
Qed.

Lemma for_loop_throws (weatherElements : JsValue) (count : nat) :
  forall i done, only_TypeError (for_loop weatherElements count i done).
Proof.
  induction count as [| count IH]; intros i done; cbn [for_loop];
    auto with throws.
  apply only_TypeError_bind; [apply loop_body_throws | intros f; apply IH].
Qed.

Lemma normalise_throws (data : JsValue) (notFound : string) :
  only_TypeError (normalise data notFound).
Proof.
  unfold normalise.
  do 3 (apply only_TypeError_bind; [auto with throws | intros ?]).
  destruct (negb (truthy _)); [auto with throws |].
  repeat (apply only_TypeError_bind; [solve [auto with throws] | intros ?]).
  apply only_TypeError_bind; [apply for_loop_throws | auto with throws].
Qed.

(** ** The three ways through [getWeatherByCity] *)

Lemma own_In {A : Type} (fields : list (string * A)) (k : string) (v : A) :
  own fields k = Some v -> In (k, v) fields.
Proof.
  induction fields as [| [k' v'] rest IH]; cbn [own]; [discriminate |].
  destruct (String.eqb_spec k' k) as [-> | _]; intros H.
  - inversion H. now left.
  - right. now apply IH.
Qed.

Lemma cityMap_names_truthy :
  forallb (fun row => negb (snd row =? "")) cityMap = true.
Proof. vm_compute. reflexivity. Qed.

Lemma Object_prototype_truthy :
  forallb (fun row => map_truthy (snd row)) Object_prototype = true.
Proof. vm_compute. reflexivity. Qed.

(** Whatever the lookup finds passes the guard [if (!cwaCity)]. *)
Lemma cityMap_get_truthy (k : string) (v : MapValue) :
  cityMap_get k = Some v -> map_truthy v = true.
Proof.
  unfold cityMap_get.
  destruct (own cityMap k) as [name |] eqn:Hown; intros H.
  - inversion H; subst v.
    exact (proj1 (forallb_forall _ cityMap) cityMap_names_truthy
             (k, name) (own_In _ _ _ Hown)).
  - exact (proj1 (forallb_forall _ Object_prototype) Object_prototype_truthy
             (k, v) (own_In _ _ _ H)).
Qed.

Lemma getWeatherByCity_path (toLowerCase : string -> string)
    (key : option string) (net : AxiosRequest -> AxiosResult) (city : string) :
  Path toLowerCase key net city.
Proof.
  destruct (key_missing key) eqn:Hkey.
  - apply path_configuration; [exact Hkey |].
    unfold getWeatherByCity. now rewrite Hkey.
  - destruct (cwaCity_of toLowerCase city) as [cwaCity |] eqn:Hcity.
    + apply (path_call _ _ _ _ cwaCity); [exact Hkey | exact Hcity |].
      apply getWeatherByCity_reached; [exact Hkey | exact Hcity |].
      exact (cityMap_get_truthy _ _ Hcity).
    + apply path_unsupported; [exact Hkey | exact Hcity |].
      unfold getWeatherByCity. now rewrite Hkey, Hcity.
Qed.

(** ** Outbound calls *)

(** X1: whatever the inputs, [getWeatherByCity] makes at most one outbound
    call; a call it makes goes to the forecast dataset URL, carries the
    configured key as [Authorization], happens only with a key configured,
    and its [locationName] is what the table lookup returned for the
    lower-cased token. *)
Theorem outbound_call_discipline :
  forall (toLowerCase : string -> string) (key : option string)
         (net : AxiosRequest -> AxiosResult) (city : string),
    List.length
      (outbound_calls (snd (getWeatherByCity toLowerCase key net city))) <= 1 /\
    forall r,
      In r (outbound_calls (snd (getWeatherByCity toLowerCase key net city))) ->
      url r = "https://opendata.cwa.gov.tw/api/v1/rest/datastore/F-C0032-001" /\
      Authorization r = key /\
      key_missing key = false /\
      cityMap_get (toLowerCase city) = Some (locationName r).
Proof.
  intros toLowerCase key net city.
  destruct (getWeatherByCity_path toLowerCase key net city)
    as [_ Hrun | _ _ Hrun | cwaCity Hkey Hcity Hrun]; rewrite Hrun;
    cbn [snd outbound_calls]; rewrite ?try_catch_no_call.
  - split; [cbn; lia | intros r []].
  - split; [cbn; lia | intros r []].
  - split; [cbn; lia |].
    intros r [<- | []]. repeat split; assumption.
Qed.

(** X2: with a key configured, the response is the 400 one exactly when the
    lookup of the lower-cased token is [undefined], and then nothing at all
    is logged: every value the lookup can find is truthy. *)
Theorem refused_exactly_when_lookup_is_undefined :
  forall (toLowerCase : string -> string) (key : option string)
         (net : AxiosRequest -> AxiosResult) (city : string),
    key_missing key = false ->
    (fst (getWeatherByCity toLowerCase key net city) = Sent unsupported_city
     <-> cityMap_get (toLowerCase city) = None) /\
    (cityMap_get (toLowerCase city) = None ->
     snd (getWeatherByCity toLowerCase key net city) = []).
Proof.
  intros toLowerCase key net city Hkey.
  destruct (getWeatherByCity_path toLowerCase key net city)
    as [Hmissing _ | _ Hcity Hrun | cwaCity _ Hcity Hrun].
  - congruence.
  - rewrite Hrun. unfold cwaCity_of in Hcity. cbn [fst snd].
    repeat split; auto.
  - rewrite Hrun. unfold cwaCity_of in Hcity. cbn [fst snd]. split.
    + split; intros H.
      * exfalso. exact (after_call_not_unsupported _ _ _ H).
      * congruence.
    + congruence.
Qed.

Lemma refused_witness :
  (fst (getWeatherByCity lower_string sample_key
          (answers (sample_document six_elements)) "Osaka")
   = Sent unsupported_city
   <-> cityMap_get (lower_string "Osaka") = None) /\
  (cityMap_get (lower_string "Osaka") = None ->
   snd (getWeatherByCity lower_string sample_key
          (answers (sample_document six_elements)) "Osaka") = []).
Proof.
  apply (refused_exactly_when_lookup_is_undefined lower_string sample_key
           (answers (sample_document six_elements)) "Osaka").
  reflexivity.
Defined.

(** X3: for an ASCII token, the lookup behind the guard returns either a
    city name written in the table, or one of exactly two inherited values:
    [Object.prototype.constructor] for a token that lower-cases to
    [constructor], and [Object.prototype] itself for one that lower-cases to
    [__proto__].  The other inherited names contain capitals and cannot be
    hit after lower-casing. *)
Theorem lookup_of_ascii_token :
  forall (toLowerCase : string -> string) (city : string) (v : MapValue),
    lowers_ascii toLowerCase ->
    is_ascii city = true ->
    cityMap_get (toLowerCase city) = Some v ->
    (exists k name, In (k, name) cityMap /\ v = CityName name) \/
    (lower_string city = "constructor" /\ v = NativeFunction "Object") \/
    (lower_string city = "__proto__" /\ v = ObjectPrototype).
Proof.
  intros toLowerCase city v Hlower Hascii.
  rewrite (Hlower city Hascii).
  pose proof (lower_string_idempotent city) as Hidem.
  revert Hidem. generalize (lower_string city) as k. intros k Hidem.
  unfold cityMap_get.
  destruct (own cityMap k) as [name |] eqn:Hown; intros H.
  - left. exists k, name. split; [now apply own_In | now inversion H].
  - right. unfold Object_prototype in H. cbn [own] in H.
    repeat match type of H with
           | context [String.eqb ?lit k] =>
               destruct (String.eqb_spec lit k) as [<- | _];
               [ first [ discriminate Hidem
                       | left; split; [reflexivity | now inversion H]
                       | right; split; [reflexivity | now inversion H] ]
               | ]
           end.
    discriminate H.
Qed.

Lemma lookup_of_ascii_token_witness :
  (exists k name, In (k, name) cityMap /\ ObjectPrototype = CityName name) \/
  (lower_string "__PROTO__" = "constructor" /\
   ObjectPrototype = NativeFunction "Object") \/
  (lower_string "__PROTO__" = "__proto__" /\ ObjectPrototype = ObjectPrototype).
Proof.
  apply (lookup_of_ascii_token lower_string "__PROTO__" ObjectPrototype
           lower_string_lowers_ascii);
    reflexivity.
Defined.

(** ** The two handlers side by side *)

(** X4: the single-city handler is the multi-city handler at the token
    [taoyuan] (or [Taoyuan]): same response, same log, on every key and every
    upstream behaviour. *)
Theorem getKaohsiungWeather_is_getWeatherByCity_at_taoyuan :
  forall (toLowerCase : string -> string) (key : option string)
         (net : AxiosRequest -> AxiosResult),
    lowers_ascii toLowerCase ->
    getKaohsiungWeather key net = getWeatherByCity toLowerCase key net "taoyuan" /\
    getKaohsiungWeather key net = getWeatherByCity toLowerCase key net "Taoyuan".
Proof.
  intros toLowerCase key net Hlower.
  assert (H : forall city,
             is_ascii city = true -> lower_string city = "taoyuan" ->
             getKaohsiungWeather key net
               = getWeatherByCity toLowerCase key net city).
  { intros city Hascii Hcity.
    unfold getKaohsiungWeather, getWeatherByCity, cwaCity_of.
    rewrite (Hlower city Hascii), Hcity. reflexivity. }
  split; apply H; reflexivity.
Qed.

Lemma getKaohsiungWeather_witness :
  getKaohsiungWeather sample_key (answers (sample_document six_elements))
    = getWeatherByCity lower_string sample_key
        (answers (sample_document six_elements)) "taoyuan" /\
  getKaohsiungWeather sample_key (answers (sample_document six_elements))
    = getWeatherByCity lower_string sample_key
        (answers (sample_document six_elements)) "Taoyuan".
Proof.
  apply (getKaohsiungWeather_is_getWeatherByCity_at_taoyuan lower_string
           sample_key (answers (sample_document six_elements))).
  exact lower_string_lowers_ascii.
Defined.

(** ** Exceptions that leave the handler *)

Lemma catch_block_TypeError : catch_block TypeError = Sent server_fault.
Proof. reflexivity. Qed.

Lemma try_catch_resolved (data : JsValue) (notFound : string) :
  fst (try_catch (normalise data notFound)) = NotInterpreted \/
  exists r,
    fst (try_catch (normalise data notFound)) = Sent r /\
    (r = no_data notFound \/ (exists d, r = success d) \/ r = server_fault).
Proof.
  destruct (normalise data notFound) as [r | e |] eqn:Hn; cbn [try_catch fst].
  - right. exists r. split; [reflexivity |].
    destruct (normalise_cases _ _ _ Hn) as [-> | [d ->]]; eauto.
  - right. rewrite (normalise_throws _ _ _ Hn). exists server_fault.
    split; [reflexivity | auto].
  - now left.
Qed.

(** X5: when the upstream call resolves, no exception leaves the handler and
    the forwarded-upstream branch is never taken: within the interpreted
    fragment a response is always sent, and it is the 404 one, a 200 success
    envelope, or the generic 500 one that every exception thrown while
    reading the answer is mapped to. *)
Theorem resolved_call_answers_404_200_or_500 :
  forall (toLowerCase : string -> string) (key : option string)
         (net : AxiosRequest -> AxiosResult) (city : string)
         (cwaCity : MapValue) (data : JsValue),
    key_missing key = false ->
    cwaCity_of toLowerCase city = Some cwaCity ->
    net (forecast_request key cwaCity) = Resolved data ->
    fst (getWeatherByCity toLowerCase key net city) = NotInterpreted \/
    exists r,
      fst (getWeatherByCity toLowerCase key net city) = Sent r /\
      ((r = no_data ("無法取得" ++ map_text cwaCity ++ "天氣資料") /\
        status r = 404%Z) \/
       (exists d, r = success d /\ status r = 200%Z) \/
       (r = server_fault /\ status r = 500%Z)).
Proof.
  intros toLowerCase key net city cwaCity data Hkey Hcity Hnet.
  rewrite (getWeatherByCity_resolved toLowerCase key net city cwaCity
             Hkey Hcity (cityMap_get_truthy _ _ Hcity) data Hnet).
  cbn [fst].
  destruct (try_catch_resolved data
              ("無法取得" ++ map_text cwaCity ++ "天氣資料"))
    as [H | (r & Hr & [-> | [[d ->] | ->]])].
  - now left.
  - right. eexists. split; [exact Hr |]. left. split; reflexivity.
  - right. eexists. split; [exact Hr |]. right. left. exists d.
    split; reflexivity.
  - right. eexists. split; [exact Hr |]. right. right. split; reflexivity.
Qed.

Lemma resolved_call_witness :
  fst (getWeatherByCity lower_string sample_key
         (answers (VObj [("records", VNull)])) "yilan") = NotInterpreted \/
  exists r,
    fst (getWeatherByCity lower_string sample_key
           (answers (VObj [("records", VNull)])) "yilan") = Sent r /\
    ((r = no_data ("無法取得" ++ map_text (CityName "宜蘭縣") ++ "天氣資料") /\
      status r = 404%Z) \/
     (exists d, r = success d /\ status r = 200%Z) \/
     (r = server_fault /\ status r = 500%Z)).
Proof.
  apply (resolved_call_answers_404_200_or_500 lower_string sample_key
           (answers (VObj [("records", VNull)])) "yilan" (CityName "宜蘭縣")
           (VObj [("records", VNull)]));
    reflexivity.
Defined.

(** X6: an exception leaves [getWeatherByCity] (so that no response is sent)
    only in one situation: the outbound call was made, it failed with an
    upstream response, and that response's body is [null] or [undefined], so
    that reading [error.response.data.message] inside the [catch] block
    throws.  The escaping exception is that [TypeError]. *)
Theorem exception_escapes_only_on_null_error_body :
  forall (toLowerCase : string -> string) (key : option string)
         (net : AxiosRequest -> AxiosResult) (city : string) (e : Thrown),
    fst (getWeatherByCity toLowerCase key net city) = Escaped e ->
    e = TypeError /\
    exists cwaCity s b,
      key_missing key = false /\
      cityMap_get (toLowerCase city) = Some cwaCity /\
      net (forecast_request key cwaCity) = Rejected (Some (s, b)) /\
      (b = VUndefined \/ b = VNull).
Proof.
  intros toLowerCase key net city e Hesc.
  destruct (getWeatherByCity_path toLowerCase key net city)
    as [_ Hrun | _ _ Hrun | cwaCity Hkey Hcity Hrun];
    rewrite Hrun in Hesc; cbn [fst] in Hesc; try discriminate Hesc.
  unfold await_get in Hesc.
  destruct (net (forecast_request key cwaCity)) as [data | response] eqn:Hnet;
    cbn [bind] in Hesc.
  - destruct (try_catch_resolved data
                ("無法取得" ++ map_text cwaCity ++ "天氣資料"))
      as [H | (r & H & _)]; rewrite H in Hesc; discriminate Hesc.
  - cbn [try_catch fst catch_block] in Hesc.
    destruct response as [[s b] |]; [| discriminate Hesc].
    destruct (get_prop b "message") as [m | e' |] eqn:Hm;
      try discriminate Hesc.
    inversion Hesc; subst e'.
    split; [exact (get_prop_throws _ _ _ Hm) |].
    exists cwaCity, s, b. repeat split; try assumption.
    destruct b; cbn [get_prop] in Hm; try discriminate Hm; auto.
    destruct (own fields "message"); discriminate Hm.
Qed.

Lemma exception_escapes_witness :
  TypeError = TypeError /\
  exists cwaCity s b,
    key_missing sample_key = false /\
    cityMap_get (lower_string "taipei") = Some cwaCity /\
    fails_with (Some (502%Z, VNull)) (forecast_request sample_key cwaCity)
      = Rejected (Some (s, b)) /\
    (b = VUndefined \/ b = VNull).
Proof.
  apply (exception_escapes_only_on_null_error_body lower_string sample_key
           (fails_with (Some (502%Z, VNull))) "taipei" TypeError).
  reflexivity.
Defined.

(** ** The shape of every success envelope *)

Lemma plus_string_inv (l : JsValue) (u : string) (r : JsValue) :
  plus_string l u = Normal r -> exists s, r = VStr (s ++ u).
Proof.
  unfold plus_string. intros H.
  apply bind_inv in H as (s & _ & H). inversion H. now exists s.
Qed.

Lemma switch_elementName_keeps (elementName value : JsValue) (f f' : Forecast) :
  switch_elementName elementName value f = Normal f' ->
  startTime f' = startTime f /\ endTime f' = endTime f /\
  (units_kept f -> units_kept f').
Proof.
  destruct elementName as [| | b | n | name | items | fields];
    cbn [switch_elementName];
    try solve [intros H; inversion H; subst f'; auto].
  repeat match goal with
         | |- context [String.eqb name ?lit] => destruct (String.eqb name lit)
         end;
    intros H;
    repeat match type of H with
           | bind _ _ = Normal _ =>
               let x := fresh "x" in
               let Hx := fresh "Hx" in
               apply bind_inv in H as (x & Hx & H)
           end;
    inversion H; subst f'; cbn;
    (split; [reflexivity |]; split; [reflexivity |]);
    intros (Hr & Hmin & Hmax);
    repeat split; try assumption;
    match goal with
    | Hp : plus_string _ _ = Normal _ |- _ =>
        right; exact (plus_string_inv _ _ _ Hp)
    end.
Qed.

Lemma each_element_keeps (i : nat) (element : JsValue) (f f' : Forecast) :
  each_element i element f = Normal f' ->
  startTime f' = startTime f /\ endTime f' = endTime f /\
  (units_kept f -> units_kept f').
Proof.
  unfold each_element. intros H.
  repeat (apply bind_inv in H as (? & _ & H)).
  now apply switch_elementName_keeps in H.
Qed.

Lemma forEach_keeps (weatherElements : JsValue) (i : nat) (f f' : Forecast) :
  forEach weatherElements (each_element i) f = Normal f' ->
  startTime f' = startTime f /\ endTime f' = endTime f /\
  (units_kept f -> units_kept f').
Proof.
  destruct weatherElements as [| | b | n | s | items | fields];
    cbn [forEach]; try discriminate.
  revert f. induction items as [| e rest IH]; intros f; cbn [forEach_items].
  - intros H. inversion H. auto.
  - intros H. apply bind_inv in H as (f1 & H1 & H).
    apply each_element_keeps in H1 as (Hs1 & He1 & Hu1).
    apply IH in H as (Hs & He & Hu).
    split; [congruence |]. split; [congruence | auto].
Qed.

Lemma units_kept_blank (st en : JsValue) : units_kept (blank st en).
Proof. repeat split; now left. Qed.

Lemma loop_body_inv (weatherElements : JsValue) (i : nat) (f : Forecast) :
  loop_body weatherElements i = Normal f ->
  first_element_window weatherElements i "startTime" = Normal (startTime f) /\
  first_element_window weatherElements i "endTime" = Normal (endTime f) /\
  units_kept f.
Proof.
  unfold loop_body. intros H.
  apply bind_inv in H as (st & Hst & H).
  apply bind_inv in H as (en & Hen & H).
  apply forEach_keeps in H as (Hs & He & Hu).
  cbn [blank startTime endTime] in Hs, He.
  split; [congruence |]. split; [congruence |].
  apply Hu, units_kept_blank.
Qed.

Lemma for_loop_inv (weatherElements : JsValue) (count : nat) :
  forall (i : nat) (done fs : list Forecast),
    for_loop weatherElements count i done = Normal fs ->
    exists new,
      fs = done ++ new /\ List.length new = count /\
      forall j f, nth_error new j = Some f ->
                  loop_body weatherElements (i + j) = Normal f.
Proof.
  induction count as [| count IH]; intros i done fs; cbn [for_loop]; intros H.
  - exists []. inversion H. rewrite app_nil_r. repeat split.
    intros [| j] f Hj; discriminate Hj.
  - apply bind_inv in H as (f0 & H0 & H).
    apply IH in H as (new & -> & Hlen & Hnth).
    exists (f0 :: new). rewrite <- app_assoc.
    split; [reflexivity |]. split; [cbn [List.length]; lia |].
    intros [| j] f Hj.
    + inversion Hj; subst f. now rewrite Nat.add_0_r.
    + replace (i + S j) with (S i + j) by lia. now apply Hnth.
Qed.

(** Everything a success of [normalise] tells about the answer it read. *)
Lemma normalise_success_inv (data : JsValue) (notFound : string)
    (d : WeatherData) :
  normalise data notFound = Normal (success d) ->
  exists records locationData weatherElements timeCount,
    get_prop data "records" = Normal records /\
    first_location data locationData /\
    truthy locationData = true /\
    get_prop locationData "locationName" = Normal (city d) /\
    get_prop records "datasetDescription" = Normal (updateTime d) /\
    get_prop locationData "weatherElement" = Normal weatherElements /\
    (e0 <- get_index weatherElements 0 ;;
     t <- get_prop e0 "time" ;; get_length t) = Normal timeCount /\
    turns timeCount = Normal (List.length (forecasts d)) /\
    forall i f, nth_error (forecasts d) i = Some f ->
                loop_body weatherElements i = Normal f.
Proof.
  unfold normalise. intros H.
  apply bind_inv in H as (records & Hr & H).
  apply bind_inv in H as (location & Hl & H).
  apply bind_inv in H as (locationData & H0 & H).
  destruct (truthy locationData) eqn:Htruthy; cbn [negb] in H.
  2: { inversion H. }
  apply bind_inv in H as (name & Hname & H).
  apply bind_inv in H as (records' & Hr' & H).
  rewrite Hr in Hr'. inversion Hr'; subst records'.
  apply bind_inv in H as (description & Hdescription & H).
  apply bind_inv in H as (weatherElements & Helements & H).
  apply bind_inv in H as (e0 & He0 & H).
  apply bind_inv in H as (t & Ht & H).
  apply bind_inv in H as (timeCount & Hcount & H).
  apply bind_inv in H as (count & Hturns & H).
  apply bind_inv in H as (fs & Hloop & H).
  inversion H; subst d. cbn [city updateTime forecasts].
  apply for_loop_inv in Hloop as (new & -> & Hlen & Hnth).
  cbn [app] in *.
  exists records, locationData, weatherElements, timeCount.
  split; [exact Hr |].
  split; [exists records, location; auto |].
  split; [exact Htruthy |]. split; [exact Hname |].
  split; [exact Hdescription |]. split; [exact Helements |].
  split; [now rewrite He0, bind_Normal, Ht, bind_Normal |].
  split; [now rewrite Hlen |].
  exact Hnth.
Qed.

(** A success envelope can only come from the [try] block running to its
    end on a resolved call. *)
Lemma success_origin (toLowerCase : string -> string) (key : option string)
    (net : AxiosRequest -> AxiosResult) (city : string) (d : WeatherData) :
  fst (getWeatherByCity toLowerCase key net city) = Sent (success d) ->
  exists cwaCity data,
    key_missing key = false /\
    cityMap_get (toLowerCase city) = Some cwaCity /\
    net (forecast_request key cwaCity) = Resolved data /\
    normalise data ("無法取得" ++ map_text cwaCity ++ "天氣資料")
      = Normal (success d) /\
    snd (getWeatherByCity toLowerCase key net city)
      = [HttpGet (forecast_request key cwaCity)].
Proof.
  intros Hsent.
  destruct (getWeatherByCity_path toLowerCase key net city)
    as [_ Hrun | _ _ Hrun | cwaCity Hkey Hcity Hrun];
    rewrite Hrun in Hsent |- *; cbn [fst snd] in Hsent |- *;
    try discriminate Hsent.
  exists cwaCity. unfold await_get in Hsent |- *.
  destruct (net (forecast_request key cwaCity)) as [data | response] eqn:Hnet;
    cbn [bind] in Hsent |- *.
  - exists data.
    destruct (normalise data _) as [r | e |] eqn:Hn;
      cbn [try_catch fst snd] in Hsent |- *.
    + inversion Hsent; subst r. repeat split; auto.
    + rewrite (normalise_throws _ _ _ Hn) in Hsent. discriminate Hsent.
    + discriminate Hsent.
  - exfalso. cbn [try_catch fst] in Hsent.
    destruct (catch_block_cases _ _ Hsent) as [H | (s & b & m & _ & H)];
      discriminate H.
Qed.

(** X7: in every success envelope, [city] is the [locationName] the upstream
    answer reports for its first location entry and [updateTime] is the
    answer's [datasetDescription]; neither comes from the request token.  A
    success is preceded by exactly one outbound call and no diagnostic
    line. *)
Theorem success_echoes_upstream_names :
  forall (toLowerCase : string -> string) (key : option string)
         (net : AxiosRequest -> AxiosResult) (token : string) (d : WeatherData),
    fst (getWeatherByCity toLowerCase key net token)
      = Sent {| status := 200; body := Success d |} ->
    exists cwaCity data records locationData,
      snd (getWeatherByCity toLowerCase key net token)
        = [HttpGet (forecast_request key cwaCity)] /\
      net (forecast_request key cwaCity) = Resolved data /\
      get_prop data "records" = Normal records /\
      first_location data locationData /\
      get_prop locationData "locationName" = Normal (city d) /\
      get_prop records "datasetDescription" = Normal (updateTime d).
Proof.
  intros toLowerCase key net token d Hsent.
  destruct (success_origin toLowerCase key net token d Hsent)
    as (cwaCity & data & _ & _ & Hnet & Hnorm & Hlog).
  destruct (normalise_success_inv _ _ _ Hnorm)
    as (records & locationData & weatherElements & timeCount
        & Hr & Hloc & _ & Hname & Hdescription & _).
  exists cwaCity, data, records, locationData. repeat split; assumption.
Qed.

Lemma success_echoes_witness :
  exists cwaCity data records locationData,
    snd (getWeatherByCity lower_string sample_key
           (answers (sample_document six_elements)) "Hualien")
      = [HttpGet (forecast_request sample_key cwaCity)] /\
    answers (sample_document six_elements) (forecast_request sample_key cwaCity)
      = Resolved data /\
    get_prop data "records" = Normal records /\
    first_location data locationData /\
    get_prop locationData "locationName" = Normal (VStr "臺北市") /\
    get_prop records "datasetDescription" = Normal (VStr "三十六小時天氣預報").
Proof.
  apply (success_echoes_upstream_names lower_string sample_key
           (answers (sample_document six_elements)) "Hualien"
           six_elements_data).
  reflexivity.
Defined.

(** X8: no partial results.  In every success envelope, when the first
    weather element's [time] is an array, [forecasts] has exactly one entry
    per window of that array, and entry [i] carries the [startTime] and
    [endTime] read from [weatherElements[0].time[i]], whatever else the
    answer contains. *)
Theorem success_has_one_entry_per_window :
  forall (toLowerCase : string -> string) (key : option string)
         (net : AxiosRequest -> AxiosResult) (city : string) (d : WeatherData),
    fst (getWeatherByCity toLowerCase key net city)
      = Sent {| status := 200; body := Success d |} ->
    exists cwaCity data locationData weatherElements,
      net (forecast_request key cwaCity) = Resolved data /\
      first_location data locationData /\
      get_prop locationData "weatherElement" = Normal weatherElements /\
      (forall first windows,
         get_index weatherElements 0 = Normal first ->
         get_prop first "time" = Normal (VArr windows) ->
         List.length (forecasts d) = List.length windows) /\
      (forall i f,
         nth_error (forecasts d) i = Some f ->
         first_element_window weatherElements i "startTime"
           = Normal (startTime f) /\
         first_element_window weatherElements i "endTime"
           = Normal (endTime f)).
Proof.
  intros toLowerCase key net city d Hsent.
  destruct (success_origin toLowerCase key net city d Hsent)
    as (cwaCity & data & _ & _ & Hnet & Hnorm & _).
  destruct (normalise_success_inv _ _ _ Hnorm)
    as (records & locationData & weatherElements & timeCount
        & _ & Hloc & _ & _ & _ & Helements & Hcount & Hturns & Hnth).
  exists cwaCity, data, locationData, weatherElements.
  split; [exact Hnet |]. split; [exact Hloc |]. split; [exact Helements |].
  split.
  - intros first windows Hfirst Htime.
    rewrite Hfirst, bind_Normal, Htime, bind_Normal in Hcount.
    cbn [get_length] in Hcount. inversion Hcount; subst timeCount.
    rewrite turns_of_length in Hturns. now inversion Hturns.
  - intros i f Hf.
    destruct (loop_body_inv _ _ _ (Hnth i f Hf)) as (Hst & Hen & _).
    split; assumption.
Qed.

Lemma success_has_one_entry_witness :
  exists cwaCity data locationData weatherElements,
    answers (sample_document six_elements) (forecast_request sample_key cwaCity)
      = Resolved data /\
    first_location data locationData /\
    get_prop locationData "weatherElement" = Normal weatherElements /\
    (forall first windows,
       get_index weatherElements 0 = Normal first ->
       get_prop first "time" = Normal (VArr windows) ->
       2 = List.length windows) /\
    (forall i f,
       nth_error (forecasts six_elements_data) i = Some f ->
       first_element_window weatherElements i "startTime"
         = Normal (startTime f) /\
       first_element_window weatherElements i "endTime"
         = Normal (endTime f)).
Proof.
  apply (success_has_one_entry_per_window lower_string sample_key
           (answers (sample_document six_elements)) "Hualien"
           six_elements_data).
  reflexivity.
Defined.

(** X9: in every success envelope, whatever the upstream answer held, each
    entry's [rain] is the empty string or ends in [%], and its [minTemp] and
    [maxTemp] are the empty string or end in [°C]: these three fields are
    only ever written by a concatenation with the unit. *)
Theorem success_keeps_units :
  forall (toLowerCase : string -> string) (key : option string)
         (net : AxiosRequest -> AxiosResult) (city : string) (d : WeatherData),
    fst (getWeatherByCity toLowerCase key net city)
      = Sent {| status := 200; body := Success d |} ->
    Forall units_kept (forecasts d).
Proof.
  intros toLowerCase key net city d Hsent.
  destruct (success_origin toLowerCase key net city d Hsent)
    as (cwaCity & data & _ & _ & _ & Hnorm & _).
  destruct (normalise_success_inv _ _ _ Hnorm)
    as (records & locationData & weatherElements & timeCount
        & _ & _ & _ & _ & _ & _ & _ & _ & Hnth).
  apply Forall_forall. intros f Hin.
  destruct (In_nth_error _ _ Hin) as [i Hi].
  exact (proj2 (proj2 (loop_body_inv _ _ _ (Hnth i f Hi)))).
Qed.

Lemma success_keeps_units_witness :
  Forall units_kept (forecasts six_elements_data).
Proof.
  apply (success_keeps_units lower_string sample_key
           (answers (sample_document six_elements)) "Hualien"
           six_elements_data).
  reflexivity.
Defined.

Example number_gets_its_unit :
  fst (getWeatherByCity lower_string sample_key
         (answers (sample_document
            [VObj [("elementName", VStr "PoP");
                   ("time", VArr [VObj [("parameter",
                                         VObj [("parameterName", VNum 40)])]])]]))
         "taipei") =
  Sent (success
    {| city := VStr "臺北市"; updateTime := VStr "三十六小時天氣預報";
       forecasts :=
         [ {| startTime := VUndefined; endTime := VUndefined;
              weather := VStr ""; rain := VStr "40%"; minTemp := VStr "";
              maxTemp := VStr ""; comfort := VStr ""; windSpeed := VStr "" |} ] |}).
Proof. reflexivity. Qed.

(** ** Degenerate element lists *)

(** Once the first location entry is found and read, what is left of
    [normalise] depends on the element list alone. *)
Lemma normalise_from_elements (data locationData weatherElements : JsValue)
    (notFound : string) :
  first_location data locationData ->
  truthy locationData = true ->
  get_prop locationData "weatherElement" = Normal weatherElements ->
  exists name description,
    get_prop locationData "locationName" = Normal name /\
    normalise data notFound =
      (e0 <- get_index weatherElements 0 ;;
       t <- get_prop e0 "time" ;;
       timeCount <- get_length t ;;
       count <- turns timeCount ;;
       forecasts <- for_loop weatherElements count 0 [] ;;
       Normal (success {| city := name; updateTime := description;
                          forecasts := forecasts |})).
Proof.
  intros (records & location & Hr & Hl & H0) Htruthy Helements.
  destruct (get_prop_defined _ _ "weatherElement" "locationName" Helements)
    as [name Hname].
  destruct (get_prop_defined _ _ "location" "datasetDescription" Hl)
    as [description Hdescription].
  exists name, description. split; [exact Hname |].
  unfold normalise.
  rewrite Hr, !bind_Normal, Hl, bind_Normal, H0, bind_Normal, Htruthy.
  cbn [negb].
  now rewrite Hname, !bind_Normal, Hdescription, bind_Normal, Helements,
    bind_Normal.
Qed.

(** X10: when the first weather element's [time] is an empty array, the
    loop body never runs: the handler answers 200 with an empty [forecasts]
    list, without looking at any other element (the element list need not
    even be an array). *)
Theorem empty_window_list_gives_empty_forecasts :
  forall (toLowerCase : string -> string) (key : option string)
         (net : AxiosRequest -> AxiosResult) (token : string)
         (cwaCity : MapValue)
         (data locationData weatherElements first : JsValue),
    key_missing key = false ->
    cwaCity_of toLowerCase token = Some cwaCity ->
    net (forecast_request key cwaCity) = Resolved data ->
    first_location data locationData ->
    truthy locationData = true ->
    get_prop locationData "weatherElement" = Normal weatherElements ->
    get_index weatherElements 0 = Normal first ->
    get_prop first "time" = Normal (VArr []) ->
    exists name description,
      get_prop locationData "locationName" = Normal name /\
      getWeatherByCity toLowerCase key net token =
        (Sent {| status := 200;
                 body := Success {| city := name; updateTime := description;
                                    forecasts := [] |} |},
         [HttpGet (forecast_request key cwaCity)]).
Proof.
  intros toLowerCase key net token cwaCity data locationData weatherElements
         first Hkey Hcity Hnet Hloc Htruthy Helements Hfirst Htime.
  destruct (normalise_from_elements data locationData weatherElements
              ("無法取得" ++ map_text cwaCity ++ "天氣資料")
              Hloc Htruthy Helements)
    as (name & description & Hname & Hnorm).
  exists name, description. split; [exact Hname |].
  rewrite (getWeatherByCity_resolved toLowerCase key net token cwaCity
             Hkey Hcity (cityMap_get_truthy _ _ Hcity) data Hnet).
  rewrite Hnorm, Hfirst, bind_Normal, Htime, bind_Normal.
  reflexivity.
Qed.

Lemma empty_window_list_witness :
  exists name description,
    get_prop (VObj [("weatherElement", array_like_elements)]) "locationName"
      = Normal name /\
    getWeatherByCity lower_string sample_key (answers array_like_document)
      "penghu" =
      (Sent {| status := 200;
               body := Success {| city := name; updateTime := description;
                                  forecasts := [] |} |},
       [HttpGet (forecast_request sample_key (CityName "澎湖縣"))]).
Proof.
  apply (empty_window_list_gives_empty_forecasts lower_string sample_key
           (answers array_like_document) "penghu" (CityName "澎湖縣")
           array_like_document
           (VObj [("weatherElement", array_like_elements)])
           array_like_elements
           (VObj [("time", VArr [])]));
    try reflexivity.
  eexists. eexists. split; [reflexivity |]. split; reflexivity.
Defined.

(** X11: when the first location entry has no weather elements (the list is
    missing, [null] or an empty array), reading [weatherElements[0].time]
    throws; the handler logs the diagnostic line after its one outbound call
    and answers with the generic 500. *)
Theorem no_weather_elements_is_500 :
  forall (toLowerCase : string -> string) (key : option string)
         (net : AxiosRequest -> AxiosResult) (token : string)
         (cwaCity : MapValue) (data locationData weatherElements : JsValue),
    key_missing key = false ->
    cwaCity_of toLowerCase token = Some cwaCity ->
    net (forecast_request key cwaCity) = Resolved data ->
    first_location data locationData ->
    truthy locationData = true ->
    get_prop locationData "weatherElement" = Normal weatherElements ->
    weatherElements = VUndefined \/ weatherElements = VNull \/
    weatherElements = VArr [] ->
    getWeatherByCity toLowerCase key net token =
      (Sent {| status := 500;
               body := Failure
                 {| error := "伺服器錯誤";
                    message := Some (VStr "無法取得天氣資料，請稍後再試");
                    details := None |} |},
       [HttpGet (forecast_request key cwaCity); ConsoleError]).
Proof.
  intros toLowerCase key net token cwaCity data locationData weatherElements
         Hkey Hcity Hnet Hloc Htruthy Helements Hnone.
  destruct (normalise_from_elements data locationData weatherElements
              ("無法取得" ++ map_text cwaCity ++ "天氣資料")
              Hloc Htruthy Helements)
    as (name & description & _ & Hnorm).
  rewrite (getWeatherByCity_resolved toLowerCase key net token cwaCity
             Hkey Hcity (cityMap_get_truthy _ _ Hcity) data Hnet).
  rewrite Hnorm.
  destruct Hnone as [-> | [-> | ->]]; reflexivity.
Qed.

Lemma no_weather_elements_witness :
  getWeatherByCity lower_string sample_key
    (answers (sample_document [])) "kinmen" =
    (Sent {| status := 500;
             body := Failure
               {| error := "伺服器錯誤";
                  message := Some (VStr "無法取得天氣資料，請稍後再試");
                  details := None |} |},
     [HttpGet (forecast_request sample_key (CityName "金門縣")); ConsoleError]).
Proof.
  apply (no_weather_elements_is_500 lower_string sample_key
           (answers (sample_document [])) "kinmen" (CityName "金門縣")
           (sample_document []) (sample_location []) (VArr []));
    try reflexivity.
  - apply sample_first_location.
  - right. right. reflexivity.
Defined.

(** ** Rows of the table that are never read *)

Lemma own_lowercase_rows {A : Type} (rows : list (string * A)) (k : string) :
  lower_string k = k ->
  own (filter (fun row => fst row =? lower_string (fst row)) rows) k
    = own rows k.
Proof.
  intros Hk. induction rows as [| [k' v] rest IH]; [reflexivity |].
  cbn [filter fst own].
  destruct (String.eqb_spec k' (lower_string k')) as [Hlow | Hcap].
  - cbn [own]. now rewrite IH.
  - rewrite IH.
    destruct (String.eqb_spec k' k) as [-> | _]; [contradiction Hcap | ];
      [now symmetry | reflexivity].
Qed.

(** X12: the capitalised rows of [cityMap] are never read.  For an ASCII
    token the lookup gives the same result on the 22 lower-case rows alone as
    on all 44: the token is lower-cased first, so a key containing a capital
    cannot match. *)
Theorem capitalised_rows_are_never_read :
  forall (toLowerCase : string -> string) (token : string),
    lowers_ascii toLowerCase ->
    is_ascii token = true ->
    cityMap_get (toLowerCase token) =
      match own lowercase_rows (toLowerCase token) with
      | Some name => Some (CityName name)
      | None => own Object_prototype (toLowerCase token)
      end /\
    List.length lowercase_rows = 22 /\ List.length cityMap = 44.
Proof.
  intros toLowerCase token Hlower Hascii.
  split; [| split; reflexivity].
  rewrite (Hlower token Hascii). unfold cityMap_get, lowercase_rows.
  now rewrite (own_lowercase_rows cityMap (lower_string token)
                 (lower_string_idempotent token)).
Qed.

Lemma capitalised_rows_witness :
  cityMap_get (lower_string "NewTaipei") =
    match own lowercase_rows (lower_string "NewTaipei") with
    | Some name => Some (CityName name)
    | None => own Object_prototype (lower_string "NewTaipei")
    end /\
  List.length lowercase_rows = 22 /\ List.length cityMap = 44.
Proof.
  apply (capitalised_rows_are_never_read lower_string "NewTaipei").
  - exact lower_string_lowers_ascii.
  - reflexivity.
Defined.

(** ** Elements of the same name, elements that fall short *)


Lemma forEach_items_member (items : list JsValue)
    (callback : JsValue -> Forecast -> Completion Forecast)
    (f f' : Forecast) (e : JsValue) :
  forEach_items items callback f = Normal f' ->
  In e items ->
  exists f1 f2, callback e f1 = Normal f2.
Proof.
  revert f. induction items as [| x rest IH]; intros f H Hin; [destruct Hin |].
  cbn [forEach_items] in H. apply bind_inv in H as (f1 & H1 & H).
  destruct Hin as [<- | Hin]; [now exists f, f1 | exact (IH f1 H Hin)].
Qed.

Lemma each_element_needs_window (i : nat) (element : JsValue)
    (windows : list JsValue) (f f' : Forecast) :
  each_element i element f = Normal f' ->
  get_prop element "time" = Normal (VArr windows) ->
  i < List.length windows.
Proof.
  unfold each_element. intros H Htime.
  rewrite Htime, bind_Normal in H. cbn [get_index] in H.
  rewrite bind_Normal in H.
  destruct (Nat.lt_ge_cases i (List.length windows)) as [Hlt | Hge];
    [exact Hlt |].
  rewrite (nth_overflow windows VUndefined Hge) in H. discriminate H.
Qed.

(** X13: a success envelope is only ever sent when the elements are
    aligned.  If the element list is an array whose first element reports an
    array of windows, then every listed element whose [time] is an array has
    at least as many windows as the first. *)
Theorem success_means_elements_cover_first :
  forall (toLowerCase : string -> string) (key : option string)
         (net : AxiosRequest -> AxiosResult) (token : string) (d : WeatherData),
    fst (getWeatherByCity toLowerCase key net token)
      = Sent {| status := 200; body := Success d |} ->
    exists cwaCity data locationData,
      net (forecast_request key cwaCity) = Resolved data /\
      first_location data locationData /\
      forall first rest windows e ws,
        get_prop locationData "weatherElement" = Normal (VArr (first :: rest)) ->
        get_prop first "time" = Normal (VArr windows) ->
        In e (first :: rest) ->
        get_prop e "time" = Normal (VArr ws) ->
        List.length windows <= List.length ws.
Proof.
  intros toLowerCase key net token d Hsent.
  destruct (success_origin toLowerCase key net token d Hsent)
    as (cwaCity & data & _ & _ & Hnet & Hnorm & _).
  destruct (normalise_success_inv _ _ _ Hnorm)
    as (records & locationData & weatherElements & timeCount
        & _ & Hloc & _ & _ & _ & Helements & Hcount & Hturns & Hnth).
  exists cwaCity, data, locationData.
  split; [exact Hnet |]. split; [exact Hloc |].
  intros first rest windows e ws Hlist Htime Hin Hws.
  rewrite Hlist in Helements. inversion Helements; subst weatherElements.
  cbn [get_index nth] in Hcount.
  rewrite bind_Normal, Htime, bind_Normal in Hcount.
  cbn [get_length] in Hcount. inversion Hcount; subst timeCount.
  rewrite turns_of_length in Hturns. inversion Hturns as [Hlen].
  destruct (Nat.le_gt_cases (List.length windows) (List.length ws))
    as [Hle | Hgt]; [exact Hle | exfalso].
  assert (Hsome : nth_error (forecasts d) (List.length ws) <> None).
  { apply nth_error_Some. lia. }
  destruct (nth_error (forecasts d) (List.length ws)) as [f |] eqn:Hf;
    [| contradiction].
  pose proof (Hnth _ _ Hf) as Hbody. unfold loop_body in Hbody.
  apply bind_inv in Hbody as (st & _ & Hbody).
  apply bind_inv in Hbody as (en & _ & Hbody).
  cbn [forEach] in Hbody.
  destruct (forEach_items_member _ _ _ _ e Hbody Hin) as (f1 & f2 & Hstep).
  pose proof (each_element_needs_window _ _ _ _ _ Hstep Hws). lia.
Qed.

Lemma success_means_cover_witness :
  exists cwaCity data locationData,
    answers (sample_document six_elements) (forecast_request sample_key cwaCity)
      = Resolved data /\
    first_location data locationData /\
    forall first rest windows e ws,
      get_prop locationData "weatherElement" = Normal (VArr (first :: rest)) ->
      get_prop first "time" = Normal (VArr windows) ->
      In e (first :: rest) ->
      get_prop e "time" = Normal (VArr ws) ->
      List.length windows <= List.length ws.
Proof.
  apply (success_means_elements_cover_first lower_string sample_key
           (answers (sample_document six_elements)) "Hualien"
           six_elements_data).
  reflexivity.
Defined.




Example two_PoP_run :
  exists d,
    fst (getWeatherByCity lower_string sample_key
           (answers (sample_document two_PoP)) "yunlin") = Sent (success d) /\
    map rain (forecasts d) = [VStr "60%"; VStr "70%"].
Proof. eexists. split; reflexivity. Qed.

(** * The loop on elements it can read *)

Lemma switch_elementName_other (elementName value : JsValue) (f : Forecast) :
  case_of elementName = None ->
  switch_elementName elementName value f = Normal f.
Proof.
  destruct elementName as [| | b | n | name | items | fields];
    try reflexivity.
  unfold case_of, switch_elementName.
  repeat match goal with
         | |- context [String.eqb name ?lit] => destruct (String.eqb name lit)
         end;
    intros H; first [ discriminate H | reflexivity ].
Qed.

Lemma switch_elementName_case (elementName value p : JsValue) (k : Field)
    (f : Forecast) :
  case_of elementName = Some k ->
  get_prop value "parameterName" = Normal p ->
  (takes_unit k = true -> exists text, ToString p = Normal text) ->
  exists v,
    rendered k p v /\
    switch_elementName elementName value f = Normal (set_field k f v).
Proof.
  intros Hcase Hp Htext. apply case_of_Some in Hcase. subst elementName.
  destruct k; cbn [takes_unit] in Htext; unfold rendered; cbn [takes_unit];
    try (destruct (Htext eq_refl) as [text Ht]);
    cbn; rewrite Hp; cbn [bind]; unfold plus_string;
    rewrite ?Ht; cbn [bind]; eauto.
Qed.

Lemma stored_times (elementName v : JsValue) (f : Forecast) :
  startTime (stored elementName v f) = startTime f /\
  endTime (stored elementName v f) = endTime f.
Proof.
  unfold stored. destruct (case_of elementName); [| split; reflexivity].
  apply times_set_field.
Qed.

Lemma stored_field (elementName v : JsValue) (f : Forecast) (k : Field) :
  (case_of elementName = Some k /\ field k (stored elementName v f) = v) \/
  (elementName <> VStr (element_name k) /\
   field k (stored elementName v f) = field k f).
Proof.
  unfold stored.
  destruct (case_of elementName) as [k' |] eqn:Hcase.
  - assert (Hdec : k = k' \/ k <> k')
      by (destruct k, k'; first [ left; reflexivity | right; discriminate ]).
    destruct Hdec as [<- | Hne].
    + left. split; [reflexivity | apply field_set_same].
    + right. split; [| now apply field_set_other].
      intros Heq. rewrite Heq, case_of_name in Hcase.
      inversion Hcase. contradiction.
  - right. split; [| reflexivity].
    intros Heq. rewrite Heq, case_of_name in Hcase. discriminate.
Qed.

(** One call of the callback on an element it can read. *)
Lemma each_element_read (i : nat) (element : JsValue) :
  read_at i element ->
  exists elementName v,
    get_prop element "elementName" = Normal elementName /\
    (forall f, each_element i element f = Normal (stored elementName v f)) /\
    (forall k, case_of elementName = Some k ->
               exists p, parameterName_at element i = Normal p /\
                         rendered k p v).
Proof.
  intros (t & w & value & elementName & Ht & Hw & Hvalue & Hname & Hcase).
  unfold case_readable in Hcase.
  destruct (case_of elementName) as [k |] eqn:Hk.
  - destruct Hcase as (p & Hp & Htext).
    destruct (switch_elementName_case elementName value p k
                (blank VUndefined VUndefined) Hk Hp Htext) as (v & Hv & _).
    exists elementName, v. split; [exact Hname |]. split.
    + intros f. unfold each_element, stored.
      rewrite Ht, bind_Normal, Hw, bind_Normal, Hvalue, bind_Normal,
        Hname, bind_Normal, Hk.
      destruct (switch_elementName_case elementName value p k f Hk Hp Htext)
        as (v' & Hv' & Hrun).
      rewrite Hrun. f_equal. f_equal.
      unfold rendered in Hv, Hv'. destruct (takes_unit k).
      * destruct Hv as (text & Ht1 & ->), Hv' as (text' & Ht2 & ->).
        rewrite Ht1 in Ht2. now inversion Ht2.
      * congruence.
    + intros k' Hk'. rewrite Hk in Hk'. injection Hk' as <-.
      exists p. split; [| exact Hv].
      unfold parameterName_at.
      now rewrite Ht, bind_Normal, Hw, bind_Normal, Hvalue, bind_Normal.
  - exists elementName, VUndefined. split; [exact Hname |]. split.
    + intros f. unfold each_element, stored.
      rewrite Ht, bind_Normal, Hw, bind_Normal, Hvalue, bind_Normal,
        Hname, bind_Normal, Hk.
      now apply switch_elementName_other.
    + intros k' Hk'. rewrite Hk in Hk'. discriminate Hk'.
Qed.

(** The whole [forEach] on elements it can read at index [i]. *)
Lemma forEach_items_read (i : nat) (items : list JsValue) :
  Forall (read_at i) items ->
  forall f, exists f',
    forEach_items items (each_element i) f = Normal f' /\
    startTime f' = startTime f /\
    endTime f' = endTime f /\
    forall k,
      (field k f' = field k f \/
       exists e p, In e items /\ named k e /\
                   parameterName_at e i = Normal p /\
                   rendered k p (field k f')) /\
      ((exists e, In e items /\ named k e) ->
       exists e p, In e items /\ named k e /\
                   parameterName_at e i = Normal p /\
                   rendered k p (field k f')).
Proof.
  intros Hall. induction Hall as [| e rest He Hrest IH]; intros f.
  - exists f. cbn [forEach_items]. repeat split; auto.
    intros (e & [] & _).
  - destruct (each_element_read i e He)
      as (elementName & v & Hname & Hstep & Hrendered).
    destruct (IH (stored elementName v f))
      as (f' & Hrun & Hst & Hen & Hfields).
    destruct (stored_times elementName v f) as [Hst1 Hen1].
    exists f'. cbn [forEach_items]. rewrite Hstep, bind_Normal.
    split; [exact Hrun |].
    split; [congruence |]. split; [congruence |].
    intros k. destruct (Hfields k) as [Hrest_k Hsome_k].
    assert (Hhere :
              field k f' = field k (stored elementName v f) ->
              case_of elementName = Some k ->
              exists e0 p, In e0 (e :: rest) /\ named k e0 /\
                           parameterName_at e0 i = Normal p /\
                           rendered k p (field k f')).
    { intros Hsame Hk.
      destruct (Hrendered k Hk) as (p & Hp & Hv).
      exists e, p. split; [now left |]. split.
      - unfold named. rewrite Hname. now rewrite (case_of_Some _ _ Hk).
      - split; [exact Hp |].
        destruct (stored_field elementName v f k) as [[_ Hf] | [Hne _]].
        + now rewrite Hsame, Hf.
        + exfalso. apply Hne. now apply case_of_Some. }
    assert (Hlater :
              forall e0 p, In e0 rest -> named k e0 ->
                parameterName_at e0 i = Normal p ->
                rendered k p (field k f') ->
                exists e1 p1, In e1 (e :: rest) /\ named k e1 /\
                              parameterName_at e1 i = Normal p1 /\
                              rendered k p1 (field k f')).
    { intros e0 p Hin Hn Hp Hf. exists e0, p. repeat split; auto. now right. }
    split.
    + destruct Hrest_k as [Hsame | (e0 & p & Hin & Hn & Hp & Hf)].
      * destruct (stored_field elementName v f k) as [[Hk _] | [_ Hf]].
        -- right. now apply Hhere.
        -- left. congruence.
      * right. now apply (Hlater e0 p).
    + intros (e0 & [<- | Hin] & Hn).
      * destruct Hrest_k as [Hsame | (e1 & p1 & Hin1 & Hn1 & Hp1 & Hf1)].
        -- apply Hhere; [exact Hsame |].
           unfold named in Hn. rewrite Hname in Hn. inversion Hn.
           apply case_of_name.
        -- now apply (Hlater e1 p1).
      * destruct (Hsome_k (ex_intro _ e0 (conj Hin Hn)))
          as (e1 & p1 & Hin1 & Hn1 & Hp1 & Hf1).
        now apply (Hlater e1 p1).
Qed.

Section Readable.

Variables (first : JsValue) (rest windows : list JsValue).

Hypothesis first_time : get_prop first "time" = Normal (VArr windows).

Let elements := first :: rest.

(** Turn [i] of the loop on elements it can read at [i]. *)
Lemma loop_body_read (i : nat) :
  Forall (read_at i) elements ->
  exists f,
    loop_body (VArr elements) i = Normal f /\
    i < List.length windows /\
    get_prop (nth i windows VUndefined) "startTime" = Normal (startTime f) /\
    get_prop (nth i windows VUndefined) "endTime" = Normal (endTime f) /\
    forall k,
      ((forall e, In e elements -> ~ named k e) -> field k f = VStr "") /\
      ((exists e, In e elements /\ named k e) ->
       exists e p, In e elements /\ named k e /\
                   parameterName_at e i = Normal p /\
                   rendered k p (field k f)).
Proof.
  intros Hall.
  destruct (Forall_inv Hall) as (t & w & value & name & Ht & Hw & Hvalue & _).
  rewrite first_time in Ht. inversion Ht; subst t.
  cbn [get_index] in Hw. inversion Hw as [Hnth].
  assert (Hi : i < List.length windows).
  { destruct (Nat.lt_ge_cases i (List.length windows)) as [Hlt | Hge];
      [exact Hlt |].
    rewrite (nth_overflow windows VUndefined Hge) in Hnth. subst w.
    discriminate Hvalue. }
  rewrite <- Hnth in Hvalue.
  destruct (get_prop_defined _ _ "parameter" "startTime" Hvalue) as [st Hst].
  destruct (get_prop_defined _ _ "parameter" "endTime" Hvalue) as [en Hen].
  destruct (forEach_items_read i elements Hall (blank st en))
    as (f & Hrun & Hfst & Hfen & Hfields).
  exists f. unfold loop_body, first_element_window, elements.
  cbn [get_index nth]. rewrite !bind_Normal, first_time, !bind_Normal.
  cbn [get_index]. rewrite !bind_Normal, Hst, Hen, !bind_Normal.
  split; [exact Hrun |]. split; [exact Hi |].
  split; [now rewrite Hfst |]. split; [now rewrite Hfen |].
  intros k. destruct (Hfields k) as [Hany Hsome].
  split; [| exact Hsome].
  intros Hnone.
  destruct Hany as [Hsame | (e & p & Hin & Hn & _)].
  - now rewrite Hsame, field_blank.
  - exfalso. exact (Hnone e Hin Hn).
Qed.

End Readable.

(** When every turn of the loop succeeds, so does the normalisation. *)
Lemma normalise_runs (data locationData first : JsValue)
    (rest windows : list JsValue) (notFound : string) :
  first_location data locationData ->
  truthy locationData = true ->
  get_prop locationData "weatherElement" = Normal (VArr (first :: rest)) ->
  get_prop first "time" = Normal (VArr windows) ->
  (forall i, i < List.length windows ->
             exists f, loop_body (VArr (first :: rest)) i = Normal f) ->
  exists d,
    normalise data notFound = Normal (success d) /\
    List.length (forecasts d) = List.length windows /\
    forall i, i < List.length windows ->
      exists f, nth_error (forecasts d) i = Some f /\
                loop_body (VArr (first :: rest)) i = Normal f.
Proof.
  intros Hloc Htruthy Helements Htime Hturns.
  destruct (normalise_from_elements data locationData (VArr (first :: rest))
              notFound Hloc Htruthy Helements)
    as (name & description & _ & Hnorm).
  destruct (for_loop_runs (VArr (first :: rest)) (List.length windows) 0 [])
    as (fs & Hrun & Hlen & Hnth).
  { intros j Hj. apply Hturns. lia. }
  exists {| city := name; updateTime := description; forecasts := fs |}.
  split; [| split; [exact Hlen | exact Hnth]].
  rewrite Hnorm. cbn [get_index nth].
  rewrite bind_Normal, Htime, bind_Normal.
  cbn [get_length]. rewrite bind_Normal, turns_of_length, bind_Normal.
  rewrite Hrun, bind_Normal. reflexivity.
Qed.

Lemma reads_through_at (n i : nat) (items : list JsValue) :
  Forall (reads_through n) items -> i < n -> Forall (read_at i) items.
Proof.
  intros Hall Hi. apply Forall_forall. intros e Hin.
  exact (proj1 (Forall_forall _ _) Hall e Hin i Hi).
Qed.

Section ReadablePath.

Variable toLowerCase : string -> string.
Variable key : option string.
Variable net : AxiosRequest -> AxiosResult.
Variables (token : string) (cwaCity : MapValue).
Variables (data locationData first : JsValue) (rest windows : list JsValue).

Hypothesis key_present : key_missing key = false.
Hypothesis city_found : cwaCity_of toLowerCase token = Some cwaCity.
Hypothesis city_truthy : map_truthy cwaCity = true.
Hypothesis answered : net (forecast_request key cwaCity) = Resolved data.
Hypothesis located : first_location data locationData.
Hypothesis located_truthy : truthy locationData = true.
Hypothesis listed :
  get_prop locationData "weatherElement" = Normal (VArr (first :: rest)).
Hypothesis first_time : get_prop first "time" = Normal (VArr windows).
Hypothesis readable :
  Forall (reads_through (List.length windows)) (first :: rest).

Lemma getWeatherByCity_read :
  exists d,
    getWeatherByCity toLowerCase key net token =
      (Sent (success d), [HttpGet (forecast_request key cwaCity)]) /\
    List.length (forecasts d) = List.length windows /\
    forall i, i < List.length windows ->
      exists f,
        nth_error (forecasts d) i = Some f /\
        get_prop (nth i windows VUndefined) "startTime" = Normal (startTime f) /\
        get_prop (nth i windows VUndefined) "endTime" = Normal (endTime f) /\
        forall k,
          ((forall e, In e (first :: rest) -> ~ named k e) ->
           field k f = VStr "") /\
          ((exists e, In e (first :: rest) /\ named k e) ->
           exists e p, In e (first :: rest) /\ named k e /\
                       parameterName_at e i = Normal p /\
                       rendered k p (field k f)).
Proof.
  assert (Hturn :
            forall i, i < List.length windows ->
              exists f,
                loop_body (VArr (first :: rest)) i = Normal f /\
                get_prop (nth i windows VUndefined) "startTime"
                  = Normal (startTime f) /\
                get_prop (nth i windows VUndefined) "endTime"
                  = Normal (endTime f) /\
                forall k,
                  ((forall e, In e (first :: rest) -> ~ named k e) ->
                   field k f = VStr "") /\
                  ((exists e, In e (first :: rest) /\ named k e) ->
                   exists e p, In e (first :: rest) /\ named k e /\
                               parameterName_at e i = Normal p /\
                               rendered k p (field k f))).
  { intros i Hi.
    destruct (loop_body_read first rest windows first_time i
                (reads_through_at _ i _ readable Hi))
      as (f & Hf & _ & Hrest).
    exists f. split; [exact Hf | exact Hrest]. }
  destruct (normalise_runs data locationData first rest windows
              ("無法取得" ++ map_text cwaCity ++ "天氣資料")
              located located_truthy listed first_time)
    as (d & Hnorm & Hlen & Hnth).
  { intros i Hi. destruct (Hturn i Hi) as (f & Hf & _). now exists f. }
  exists d. split; [| split; [exact Hlen |]].
  - rewrite (getWeatherByCity_resolved toLowerCase key net token cwaCity
               key_present city_found city_truthy data answered).
    rewrite Hnorm. reflexivity.
  - intros i Hi.
    destruct (Hnth i Hi) as (f & Hf & Hbody).
    destruct (Hturn i Hi) as (f' & Hbody' & Hrest).
    rewrite Hbody in Hbody'. inversion Hbody'; subst f'.
    exists f. split; [exact Hf | exact Hrest].
Qed.

End ReadablePath.

Lemma rendered_ends_with_unit (k : Field) (p v : JsValue) :
  takes_unit k = true -> rendered k p v ->
  exists text, v = VStr (text ++ unit_of k).
Proof.
  unfold rendered. intros ->. intros (text & _ & ->). now exists text.
Qed.

(** With a string for a parameter name, what is stored is that string
    followed by the unit. *)
Lemma rendered_string (k : Field) (s : string) (v : JsValue) :
  rendered k (VStr s) v -> v = VStr (s ++ unit_of k).
Proof.
  unfold rendered. destruct k; cbn [takes_unit unit_of];
    first [ intros (text & Ht & ->); cbn [ToString] in Ht; now inversion Ht
          | intros ->; now rewrite append_empty ].
Qed.

(** The documented shape is one the loop can read. *)
Lemma covers_reads_through (n : nat) (element : JsValue) :
  covers n element -> reads_through n element.
Proof.
  intros Hcov i Hi.
  destruct (covers_window n i element Hcov Hi)
    as (windows & p & s & Htime & _ & Hp & Hs).
  destruct (get_prop_defined element _ "time" "elementName" Htime)
    as [elementName Hname].
  exists (VArr windows), (nth i windows VUndefined), p, elementName.
  repeat split; try assumption.
  unfold case_readable. destruct (case_of elementName); [| exact I].
  exists (VStr s). split; [exact Hs |]. intros _. now exists s.
Qed.

(** Conversely, an element on which the callback succeeds was readable: the
    condition asks for nothing the loop does not use. *)
Lemma each_element_was_read (i : nat) (element : JsValue) (f f' : Forecast) :
  each_element i element f = Normal f' -> read_at i element.
Proof.
  unfold each_element. intros H.
  apply bind_inv in H as (t & Ht & H).
  apply bind_inv in H as (w & Hw & H).
  apply bind_inv in H as (value & Hvalue & H).
  apply bind_inv in H as (elementName & Hname & H).
  exists t, w, value, elementName. repeat split; try assumption.
  unfold case_readable.
  destruct (case_of elementName) as [k |] eqn:Hk; [| exact I].
  apply case_of_Some in Hk. subst elementName.
  destruct k; cbn in H;
    apply bind_inv in H as (p & Hp & H);
    exists p; (split; [exact Hp |]); cbn [takes_unit]; intros Hunit;
    try discriminate Hunit;
    apply bind_inv in H as (r & Hr & _);
    unfold plus_string in Hr;
    apply bind_inv in Hr as (text & Htext & _); now exists text.
Qed.

Lemma success_means_elements_were_read (toLowerCase : string -> string)
    (key : option string) (net : AxiosRequest -> AxiosResult) (token : string)
    (cwaCity : MapValue) (data locationData first : JsValue)
    (rest windows : list JsValue) (d : WeatherData) :
  key_missing key = false ->
  cwaCity_of toLowerCase token = Some cwaCity ->
  net (forecast_request key cwaCity) = Resolved data ->
  first_location data locationData ->
  get_prop locationData "weatherElement" = Normal (VArr (first :: rest)) ->
  get_prop first "time" = Normal (VArr windows) ->
  fst (getWeatherByCity toLowerCase key net token) = Sent (success d) ->
  Forall (reads_through (List.length windows)) (first :: rest).
Proof.
  intros Hkey Hcity Hnet (records & location & Hr & Hl & H0) Hlist Htime Hsent.
  rewrite (getWeatherByCity_resolved toLowerCase key net token cwaCity
             Hkey Hcity (cityMap_get_truthy _ _ Hcity) data Hnet) in Hsent.
  cbn [fst] in Hsent.
  destruct (normalise data _) as [r | e |] eqn:Hnorm;
    cbn [try_catch fst] in Hsent.
  2: { rewrite (normalise_throws _ _ _ Hnorm) in Hsent. discriminate Hsent. }
  2: { discriminate Hsent. }
  inversion Hsent; subst r.
  destruct (normalise_success_inv _ _ _ Hnorm)
    as (records' & locationData' & weatherElements & timeCount
        & Hr' & (records2 & location' & Hr2 & Hl' & H0') & _ & _ & _
        & Helements & Hcount & Hturns & Hnth).
  rewrite Hr in Hr2. inversion Hr2; subst records2.
  rewrite Hl in Hl'. inversion Hl'; subst location'.
  rewrite H0 in H0'. inversion H0'; subst locationData'.
  rewrite Hlist in Helements. inversion Helements; subst weatherElements.
  cbn [get_index nth] in Hcount.
  rewrite bind_Normal, Htime, bind_Normal in Hcount.
  cbn [get_length] in Hcount. inversion Hcount; subst timeCount.
  rewrite turns_of_length in Hturns. inversion Hturns as [Hlen].
  apply Forall_forall. intros e Hin i Hi.
  assert (Hsome : nth_error (forecasts d) i <> None).
  { apply nth_error_Some. lia. }
  destruct (nth_error (forecasts d) i) as [f |] eqn:Hf; [| contradiction].
  pose proof (Hnth _ _ Hf) as Hbody. unfold loop_body in Hbody.
  apply bind_inv in Hbody as (st & _ & Hbody).
  apply bind_inv in Hbody as (en & _ & Hbody).
  cbn [forEach] in Hbody.
  destruct (forEach_items_member _ _ _ _ e Hbody Hin) as (f1 & f2 & Hstep).
  exact (each_element_was_read _ _ _ _ Hstep).
Qed.

(** C1, as amended: when the first location entry lists weather elements
    and the loop can read each of them at every index of the first
    element's window list (each has an entry in [time] there, so at least as
    many windows as the first, and the case its name selects can read a
    parameter name), [getWeatherByCity] answers 200 with a success envelope
    after its single outbound call; [data.forecasts] has exactly as many
    entries as the first element has windows; entry [i] takes [startTime]
    and [endTime] from window [i] of the first element; a field whose
    element is present holds that element's parameter name at index [i],
    followed by the unit for rain and the two temperatures; and when all six
    elements are present, every entry has [rain] ending in [%] and
    [minTemp] and [maxTemp] ending in [°C]. *)
Theorem C1_one_forecast_per_window_of_first_element :
  forall (toLowerCase : string -> string) (key : option string)
         (net : AxiosRequest -> AxiosResult) (token : string)
         (cwaCity : MapValue) (data locationData first : JsValue)
         (rest windows : list JsValue),
    key_missing key = false ->
    cwaCity_of toLowerCase token = Some cwaCity ->
    map_truthy cwaCity = true ->
    net (forecast_request key cwaCity) = Resolved data ->
    first_location data locationData ->
    truthy locationData = true ->
    get_prop locationData "weatherElement" = Normal (VArr (first :: rest)) ->
    get_prop first "time" = Normal (VArr windows) ->
    Forall (reads_through (List.length windows)) (first :: rest) ->
    exists d,
      getWeatherByCity toLowerCase key net token =
        (Sent {| status := 200; body := Success d |},
         [HttpGet (forecast_request key cwaCity)]) /\
      List.length (forecasts d) = List.length windows /\
      (forall i, i < List.length windows ->
         exists f w,
           nth_error (forecasts d) i = Some f /\
           nth_error windows i = Some w /\
           get_prop w "startTime" = Normal (startTime f) /\
           get_prop w "endTime" = Normal (endTime f) /\
           forall k,
             (exists e, In e (first :: rest) /\ named k e) ->
             exists e p,
               In e (first :: rest) /\ named k e /\
               parameterName_at e i = Normal p /\
               rendered k p (field k f)) /\
      ((forall k, exists e, In e (first :: rest) /\ named k e) ->
       Forall ends_with_units (forecasts d)).
Proof.
  intros toLowerCase key net token cwaCity data locationData first rest windows
         Hkey Hcity Htruthy Hnet Hloc Hloct Hlist Htime Hall.
  destruct (getWeatherByCity_read toLowerCase key net token cwaCity
              data locationData first rest windows
              Hkey Hcity Htruthy Hnet Hloc Hloct Hlist Htime Hall)
    as (d & Hrun & Hlen & Hnth).
  exists d. split; [exact Hrun |]. split; [exact Hlen |]. split.
  - intros i Hi.
    destruct (Hnth i Hi) as (f & Hf & Hst & Hen & Hfields).
    exists f, (nth i windows VUndefined).
    split; [exact Hf |]. split; [now apply nth_error_nth' |].
    split; [exact Hst |]. split; [exact Hen |].
    intros k. exact (proj2 (Hfields k)).
  - intros Hsix. apply Forall_forall. intros f Hin.
    destruct (In_nth_error _ _ Hin) as [i Hi].
    assert (Hlt : i < List.length windows).
    { rewrite <- Hlen. apply nth_error_Some. now rewrite Hi. }
    destruct (Hnth i Hlt) as (f' & Hf' & _ & _ & Hfields).
    rewrite Hi in Hf'. inversion Hf'; subst f'.
    destruct (proj2 (Hfields PoP) (Hsix PoP)) as (e1 & p1 & _ & _ & _ & H1).
    destruct (proj2 (Hfields MinT) (Hsix MinT)) as (e2 & p2 & _ & _ & _ & H2).
    destruct (proj2 (Hfields MaxT) (Hsix MaxT)) as (e3 & p3 & _ & _ & _ & H3).
    destruct (rendered_ends_with_unit PoP _ _ eq_refl H1) as [pop Hpop].
    destruct (rendered_ends_with_unit MinT _ _ eq_refl H2) as [mint Hmint].
    destruct (rendered_ends_with_unit MaxT _ _ eq_refl H3) as [maxt Hmaxt].
    exists pop, mint, maxt. repeat split; assumption.
Qed.

(** C2, as amended: when the loop can read each listed element at every
    index of the first element's window list, an element [k] of the
    enumeration that occurs nowhere in the list leaves its field the empty
    string in every forecast entry, and the request succeeds with one entry
    per window; for [k = CI] the field is [comfort]. *)
Theorem C2_absent_element_leaves_field_empty :
  forall (toLowerCase : string -> string) (key : option string)
         (net : AxiosRequest -> AxiosResult) (token : string)
         (cwaCity : MapValue) (data locationData first : JsValue)
         (rest windows : list JsValue) (k : Field),
    key_missing key = false ->
    cwaCity_of toLowerCase token = Some cwaCity ->
    map_truthy cwaCity = true ->
    net (forecast_request key cwaCity) = Resolved data ->
    first_location data locationData ->
    truthy locationData = true ->
    get_prop locationData "weatherElement" = Normal (VArr (first :: rest)) ->
    get_prop first "time" = Normal (VArr windows) ->
    Forall (reads_through (List.length windows)) (first :: rest) ->
    (forall e, In e (first :: rest) -> ~ named k e) ->
    exists d,
      getWeatherByCity toLowerCase key net token =
        (Sent {| status := 200; body := Success d |},
         [HttpGet (forecast_request key cwaCity)]) /\
      List.length (forecasts d) = List.length windows /\
      Forall (fun f => field k f = VStr "") (forecasts d).
Proof.
  intros toLowerCase key net token cwaCity data locationData first rest windows
         k Hkey Hcity Htruthy Hnet Hloc Hloct Hlist Htime Hall Habsent.
  destruct (getWeatherByCity_read toLowerCase key net token cwaCity
              data locationData first rest windows
              Hkey Hcity Htruthy Hnet Hloc Hloct Hlist Htime Hall)
    as (d & Hrun & Hlen & Hnth).
  exists d. split; [exact Hrun |]. split; [exact Hlen |].
  apply Forall_forall. intros f Hin.
  destruct (In_nth_error _ _ Hin) as [i Hi].
  assert (Hlt : i < List.length windows).
  { rewrite <- Hlen. apply nth_error_Some. now rewrite Hi. }
  destruct (Hnth i Hlt) as (f' & Hf' & _ & _ & Hfields).
  rewrite Hi in Hf'. inversion Hf'; subst f'.
  exact (proj1 (Hfields k) Habsent).
Qed.

Ltac sample_reads :=
  repeat (apply Forall_cons || apply Forall_nil);
  (let i := fresh "i" in
   let Hi := fresh "Hi" in
   intros i Hi; destruct i as [| [| i]]; [ | | exfalso; lia ];
   (do 4 eexists;
    split; [reflexivity |]; split; [reflexivity |];
    split; [reflexivity |]; split; [reflexivity |];
    unfold case_readable; cbn;
    first [ exact I
          | eexists; split; [reflexivity |];
            first [ intros _; eexists; reflexivity
                  | intros H; discriminate H ] ])).

Lemma six_elements_read : Forall (reads_through 2) six_elements.
Proof.
  apply (Forall_impl _ (covers_reads_through 2)), six_elements_aligned.
Qed.

(** A numeric parameter name, an unknown element without parameters and a
    surplus window without parameter are all read without trouble. *)
Lemma loose_elements_read : Forall (reads_through 2) loose_elements.
Proof. unfold loose_elements. sample_reads. Qed.

Lemma loose_elements_lack_CI (e : JsValue) :
  In e loose_elements -> ~ named CI e.
Proof.
  unfold loose_elements. cbn [In].
  intros [<- | [<- | [<- | []]]]; discriminate.
Qed.

Lemma C1_witness :
  exists d,
    getWeatherByCity lower_string sample_key
      (answers (sample_document six_elements)) "Taipei" =
      (Sent {| status := 200; body := Success d |},
       [HttpGet (forecast_request sample_key (CityName "臺北市"))]) /\
    List.length (forecasts d) = 2 /\
    Forall ends_with_units (forecasts d).
Proof.
  destruct (C1_one_forecast_per_window_of_first_element lower_string sample_key
              (answers (sample_document six_elements)) "Taipei"
              (CityName "臺北市") (sample_document six_elements)
              (sample_location six_elements)
              (sample_element "Wx"
                 [sample_window t0 t1 "晴時多雲"; sample_window t1 t2 "多雲"])
              (tl six_elements)
              [sample_window t0 t1 "晴時多雲"; sample_window t1 t2 "多雲"]
              eq_refl eq_refl eq_refl eq_refl
              (sample_first_location six_elements) eq_refl eq_refl eq_refl
              six_elements_read)
    as (d & Hrun & Hlen & _ & Hsix).
  exists d. split; [exact Hrun |]. split; [exact Hlen |].
  apply Hsix. exact six_elements_complete.
Defined.

Lemma C2_witness :
  exists d,
    getWeatherByCity lower_string sample_key
      (answers (sample_document loose_elements)) "Taipei" =
      (Sent {| status := 200; body := Success d |},
       [HttpGet (forecast_request sample_key (CityName "臺北市"))]) /\
    List.length (forecasts d) = 2 /\
    Forall (fun f => comfort f = VStr "") (forecasts d).
Proof.
  exact (C2_absent_element_leaves_field_empty lower_string sample_key
           (answers (sample_document loose_elements)) "Taipei"
           (CityName "臺北市") (sample_document loose_elements)
           (sample_location loose_elements)
           (sample_element "Wx"
              [sample_window t0 t1 "晴時多雲"; sample_window t1 t2 "多雲"])
           (tl loose_elements)
           [sample_window t0 t1 "晴時多雲"; sample_window t1 t2 "多雲"]
           CI eq_refl eq_refl eq_refl eq_refl
           (sample_first_location loose_elements) eq_refl eq_refl eq_refl
           loose_elements_read loose_elements_lack_CI).
Defined.

Example six_elements_populated : Forall populated (forecasts six_elements_data).
Proof.
  apply Forall_cons; [| apply Forall_cons; [| apply Forall_nil]].
  - exists "晴時多雲", "10", "18", "24", "舒適", "2". repeat split.
  - exists "多雲", "30", "16", "21", "稍有寒意", "3". repeat split.
Qed.

Example loose_elements_run :
  fst (getWeatherByCity lower_string sample_key
         (answers (sample_document loose_elements)) "Taipei") =
  Sent (success
    {| city := VStr "臺北市"; updateTime := VStr "三十六小時天氣預報";
       forecasts :=
         [ {| startTime := VStr t0; endTime := VStr t1;
              weather := VStr "晴時多雲"; rain := VStr "40%";
              minTemp := VStr ""; maxTemp := VStr "";
              comfort := VStr ""; windSpeed := VStr "" |};
           {| startTime := VStr t1; endTime := VStr t2;
              weather := VStr "多雲"; rain := VStr "5%";
              minTemp := VStr ""; maxTemp := VStr "";
              comfort := VStr ""; windSpeed := VStr "" |} ] |}).
Proof. reflexivity. Qed.

(** * The single-city handler, once more *)

Lemma getKaohsiungWeather_as_taoyuan (key : option string)
    (net : AxiosRequest -> AxiosResult) :
  getKaohsiungWeather key net = getWeatherByCity lower_string key net "taoyuan".
Proof.
  unfold getKaohsiungWeather, getWeatherByCity.
  destruct (key_missing key); reflexivity.
Qed.

(** C10, as amended: [getKaohsiungWeather], despite its name, asks upstream
    for 桃園市 (Taoyuan) and never for 高雄市 (Kaohsiung).  Without a
    credential it answers with the configuration fault and makes no call;
    with one it makes exactly one call, to the forecast dataset with
    [locationName] 桃園市.  The 404 response of its own names 桃園市, and it is
    what is sent when the answer has no first location entry.  On success
    the [city] it returns is the [locationName] of the record the upstream
    sent back for that request. *)
Theorem C10_getKaohsiungWeather_asks_for_Taoyuan :
  forall (key : option string) (net : AxiosRequest -> AxiosResult),
    (forall r,
       In r (outbound_calls (snd (getKaohsiungWeather key net))) ->
       url r = "https://opendata.cwa.gov.tw/api/v1/rest/datastore/F-C0032-001" /\
       Authorization r = key /\
       locationName r = CityName "桃園市" /\
       locationName r <> CityName "高雄市") /\
    (if key_missing key
     then getKaohsiungWeather key net =
            (Sent {| status := 500;
                     body := Failure
                       {| error := "伺服器設定錯誤";
                          message :=
                            Some (VStr "請在 .env 檔案中設定 CWA_API_KEY");
                          details := None |} |}, [])
     else outbound_calls (snd (getKaohsiungWeather key net)) =
            [ {| url := "https://opendata.cwa.gov.tw/api/v1/rest/datastore/F-C0032-001";
                 Authorization := key;
                 locationName := CityName "桃園市" |} ]) /\
    (forall r e,
       fst (getKaohsiungWeather key net) = Sent r ->
       body r = Failure e ->
       error e = "查無資料" ->
       status r = 404%Z /\
       message e = Some (VStr "無法取得桃園市天氣資料")) /\
    (forall data locationData,
       key_missing key = false ->
       net {| url := "https://opendata.cwa.gov.tw/api/v1/rest/datastore/F-C0032-001";
              Authorization := key;
              locationName := CityName "桃園市" |} = Resolved data ->
       first_location data locationData ->
       truthy locationData = false ->
       fst (getKaohsiungWeather key net) =
         Sent {| status := 404;
                 body := Failure
                   {| error := "查無資料";
                      message := Some (VStr "無法取得桃園市天氣資料");
                      details := None |} |}) /\
    (forall d,
       fst (getKaohsiungWeather key net)
         = Sent {| status := 200; body := Success d |} ->
       exists data locationData,
         net {| url := "https://opendata.cwa.gov.tw/api/v1/rest/datastore/F-C0032-001";
                Authorization := key;
                locationName := CityName "桃園市" |} = Resolved data /\
         first_location data locationData /\
         get_prop locationData "locationName" = Normal (city d)) /\
    contains "桃園市" "無法取得桃園市天氣資料".
Proof.
  intros key net.
  assert (Hcalls :
            if key_missing key
            then getKaohsiungWeather key net = (Sent configuration_fault, [])
            else outbound_calls (snd (getKaohsiungWeather key net))
                 = [forecast_request key (CityName "桃園市")]).
  { destruct (key_missing key) eqn:Hkey.
    - unfold getKaohsiungWeather. now rewrite Hkey.
    - rewrite (getKaohsiungWeather_reached key net Hkey).
      cbn [snd outbound_calls]. now rewrite try_catch_no_call. }
  split; [| split; [exact Hcalls | split; [| split; [| split]]]].
  - intros r Hin. destruct (key_missing key).
    + rewrite Hcalls in Hin. destruct Hin.
    + rewrite Hcalls in Hin. destruct Hin as [<- | []].
      repeat split. discriminate.
  - intros r e Hsent Hbody Herror.
    destruct (key_missing key) eqn:Hkey.
    + rewrite Hcalls in Hsent. inversion Hsent; subst r.
      inversion Hbody; subst e. discriminate Herror.
    + rewrite (getKaohsiungWeather_reached key net Hkey) in Hsent.
      cbn [fst] in Hsent.
      destruct (after_call_cases _ _ _ _ Hsent)
        as [-> | [[d ->] | [-> | (s & b & m & _ & ->)]]];
        inversion Hbody; subst e; try discriminate Herror.
      split; reflexivity.
  - intros data locationData Hkey Hnet Hfirst Hfalsy.
    rewrite (getKaohsiungWeather_reached key net Hkey). cbn [fst].
    unfold await_get.
    change (forecast_request key (CityName "桃園市"))
      with {| url := "https://opendata.cwa.gov.tw/api/v1/rest/datastore/F-C0032-001";
              Authorization := key;
              locationName := CityName "桃園市" |}.
    rewrite Hnet, bind_Normal.
    now rewrite (normalise_no_data data locationData _ Hfirst Hfalsy).
  - intros d Hsent.
    rewrite getKaohsiungWeather_as_taoyuan in Hsent.
    destruct (success_origin lower_string key net "taoyuan" d Hsent)
      as (cwaCity & data & _ & Hcity & Hnet & Hnorm & _).
    change (cityMap_get (lower_string "taoyuan"))
      with (Some (CityName "桃園市")) in Hcity.
    injection Hcity as <-.
    destruct (normalise_success_inv _ _ _ Hnorm)
      as (records & locationData & weatherElements & timeCount
          & _ & Hloc & _ & Hname & _).
    exists data, locationData. split; [exact Hnet |].
    split; [exact Hloc | exact Hname].
  - exact (contains_middle "無法取得" "桃園市" "天氣資料").
Qed.

(** C10, the claim as stated fails: the handler returns whatever record the
    upstream sends back.  When the answer to the 桃園市 request carries a
    record named 高雄市, the success envelope reports 高雄市. *)
Lemma C10_counterexample :
  exists d,
    getKaohsiungWeather sample_key (answers kaohsiung_document) =
      (Sent {| status := 200; body := Success d |},
       [HttpGet
          {| url := "https://opendata.cwa.gov.tw/api/v1/rest/datastore/F-C0032-001";
             Authorization := sample_key;
             locationName := CityName "桃園市" |}]) /\
    city d = VStr "高雄市" /\
    city d <> VStr "桃園市".
Proof.
  eexists. split; [reflexivity |]. split; [reflexivity | discriminate].
Qed.

Example getKaohsiungWeather_without_key :
  forall net, getKaohsiungWeather None net = (Sent configuration_fault, []).
Proof. reflexivity. Qed.

Example getKaohsiungWeather_no_data :
  getKaohsiungWeather sample_key
    (answers (VObj [("records", VObj [("location", VArr [])])])) =
  (Sent (no_data "無法取得桃園市天氣資料"),
   [HttpGet (forecast_request sample_key (CityName "桃園市"))]).
Proof. reflexivity. Qed.
